(** * Bookmark Manager Helper: the extension bridge and its manual UI

    A shallow embedding of [browser_extension/background.js] (message
    router, [deleteBookmarks], [findBookmarksByUrl]) and of the manual
    delete page script (file import, [getIds], [updateCount], the delete
    button handler), together with the properties stated about them.

    Conventions of the embedding.
    - A JavaScript string is a [string]; each character stands for one
      UTF-16 code unit below 256.
    - A value that reaches the extension in a message, or that
      [JSON.parse] returns, is a [value]: it is data, it has no getters
      and no user-defined [toString].
    - An [async] function is a [Proc]: a finite tree whose nodes are the
      calls that leave the script (bookmark store, dialogs, the reply
      callbacks) and whose continuation is run only with the outcome of
      the call, as [await] does. *)

From Stdlib Require Import Ascii String PrimFloat.
From stdpp Require Import base option list strings pretty.

Local Open Scope string_scope.
Local Open Scope list_scope.
Set Warnings "-register-all".
Set Default Proof Using "Type*".

(** ** JavaScript values *)

Inductive value (number : Type) : Type :=
| VUndefined
| VNull
| VBool (b : bool)
| VNum (n : number)
| VStr (s : string)
| VArr (items : list (value number))
| VObj (fields : list (string * value number)).

Arguments VUndefined {number}.
Arguments VNull {number}.
Arguments VBool {number} b.
Arguments VNum {number} n.
Arguments VStr {number} s.
Arguments VArr {number} items.
Arguments VObj {number} fields.

(** [chrome.bookmarks.BookmarkTreeNode], as [search] returns it. *)
Record BookmarkTreeNode := {
  node_id : string;
  node_parentId : option string;
  node_index : option nat;
  node_url : option string;
  node_title : string;
  node_dateAdded : option string
}.

(** What the JavaScript engine and the page supply: numbers and their
    conversion to a string, the messages of the two [TypeError]s the
    scripts can raise (iterating a value that is not iterable, the
    message naming the variable iterated; reading a property of [null] or
    [undefined]), [JSON.parse] ([None]: it throws), and
    [Number.prototype.toFixed(0)] of [(k / total * 100)]. *)
Class Engine := {
  number : Type;
  number_to_string : number → string;
  not_iterable_message : string → value number → string;
  cannot_read_message : value number → string → string;
  JSON_parse : string → option (value number);
  percent_toFixed0 : nat → nat → string
}.

Abbreviation val := (value number).

(** The code units of a string, in order. *)
Fixpoint code_units (s : string) : list ascii :=
  match s with
  | EmptyString => []
  | String c rest => c :: code_units rest
  end.

(** [l.push(x)] *)
Definition push {A} (l : list A) (x : A) : list A := (l ++ [x])%list.

(** A settled promise. *)
Inductive settled (A : Type) : Type :=
| Fulfilled (a : A)
| Rejected (message : string).

Arguments Fulfilled {A} a.
Arguments Rejected {A} message.

Section Values.
Context `{Engine}.

(** [Array.prototype.join]: [undefined] and [null] elements give the
    empty string, the others their string conversion [str]. *)
Definition join_with (str : val → string) (sep : string) : list val → string :=
  fix go (l : list val) : string :=
    match l with
    | [] => ""
    | x :: rest =>
        let sx := match x with VUndefined | VNull => "" | _ => str x end in
        match rest with
        | [] => sx
        | _ :: _ => sx +:+ sep +:+ go rest
        end
    end.

(** [String(v)]. *)
Fixpoint ToString (v : val) : string :=
  match v with
  | VUndefined => "undefined"
  | VNull => "null"
  | VBool true => "true"
  | VBool false => "false"
  | VNum n => number_to_string n
  | VStr s => s
  | VArr items => join_with ToString "," items
  | VObj _ => "[object Object]"
  end.

Definition join (sep : string) (l : list val) : string :=
  join_with ToString sep l.

(** [typeof v === 'object'] *)
Definition typeof_object (v : val) : bool :=
  match v with
  | VNull | VArr _ | VObj _ => true
  | _ => false
  end.

Fixpoint own_property (fields : list (string * val)) (name : string) : val :=
  match fields with
  | [] => VUndefined
  | (k, v) :: rest => if bool_decide (k = name) then v else own_property rest name
  end.

(** [o.name] for the names the scripts read ([action], [bookmarkIds],
    [urls], [id]), none of which is a built-in property of a string, a
    number, a boolean or an array. [None]: reading a property of
    [undefined] or [null] throws. *)
Definition get (o : val) (name : string) : option val :=
  match o with
  | VUndefined | VNull => None
  | VObj fields => Some (own_property fields name)
  | _ => Some VUndefined
  end.

(** [v === s] for a string literal [s]. *)
Definition is_string (v : val) (s : string) : bool :=
  match v with
  | VStr s' => bool_decide (s' = s)
  | _ => false
  end.

(** The items [for (const x of v)] visits; [None]: [v] is not iterable.
    An array yields its elements, a string its characters. *)
Definition iterate (v : val) : option (list val) :=
  match v with
  | VArr items => Some items
  | VStr s => Some ((λ c, VStr (String c "")) <$> code_units s)
  | _ => None
  end.
End Values.

(** ** Results and envelopes *)

(** An entry of [deleteBookmarks]: [{id, success, error?}]. *)
Record DeleteResult := {
  dr_id : string;
  dr_success : bool;
  dr_error : option string
}.

(** A match of [findBookmarksByUrl]: [{id, title, url, parentId}]. *)
Record Match := {
  m_id : string;
  m_title : string;
  m_url : option string;
  m_parentId : option string
}.

(** An entry of [findBookmarksByUrl]: [{url, bookmarks, error?}]. *)
Record LookupResult `{Engine} := {
  lr_url : val;
  lr_error : option string;
  lr_bookmarks : list Match
}.

Inductive Results `{Engine} : Type :=
| DeleteResults (l : list DeleteResult)
| LookupResults (l : list LookupResult).

(** The envelope handed to [sendResponse] or [port.postMessage]. *)
Record Response `{Engine} := {
  success : bool;
  results : option Results;
  error : option string;
  message : option string
}.

(** ** Asynchronous procedures *)

(** A procedure over a page state [St] returning an [A]. [Read] and
    [Update] are reads and assignments of the page state; the other nodes
    are calls that leave the script. *)
Inductive Proc `{Engine} (St A : Type) : Type :=
| Ret (a : A)
| Throw (error_message : string)
| Read (k : St → Proc St A)
| Update (f : St → St) (k : Proc St A)
| Remove (id : string) (k : settled unit → Proc St A)
| Search (url : val) (k : settled (list BookmarkTreeNode) → Proc St A)
| Confirm (text : string) (k : bool → Proc St A)
| Alert (text : string) (k : Proc St A)
| SendResponse (r : Response) (k : Proc St A)
| PostMessage (r : Response) (k : Proc St A).

Arguments Ret {_ St A} a.
Arguments Throw {_ St A} error_message.
Arguments Read {_ St A} k.
Arguments Update {_ St A} f k.
Arguments Remove {_ St A} id k.
Arguments Search {_ St A} url k.
Arguments Confirm {_ St A} text k.
Arguments Alert {_ St A} text k.
Arguments SendResponse {_ St A} r k.
Arguments PostMessage {_ St A} r k.

(** What an observer of the script sees, in order. A store call shows
    twice: when it is issued and when its promise settles. *)
Inductive event `{Engine} : Type :=
| RemoveIssued (id : string)
| RemoveSettled (id : string) (o : settled unit)
| SearchIssued (url : val)
| SearchSettled (url : val) (o : settled (list BookmarkTreeNode))
| ConfirmShown (text : string) (answer : bool)
| AlertShown (text : string)
| ResponseSent (r : Response)
| MessagePosted (r : Response).

(** The browser around the script: the bookmark store
    ([chrome.bookmarks.remove], [chrome.bookmarks.search]) and the operator
    answering [confirm], as transitions of a world [W]. *)
Class Browser `{Engine} (W : Type) := {
  bookmarks_remove : string → W → settled unit * W;
  bookmarks_search : val → W → settled (list BookmarkTreeNode) * W;
  window_confirm : string → W → bool * W
}.

(** The result of running a procedure: the events, each with the page
    state at the time, the final page state and world, and how the
    procedure completed. *)
Record Run `{Engine} (St W A : Type) := {
  timeline : list (St * event);
  page : St;
  world : W;
  completion : settled A
}.

Arguments timeline {_ St W A} r.
Arguments page {_ St W A} r.
Arguments world {_ St W A} r.
Arguments completion {_ St W A} r.

Section Procedures.
Context `{Engine}.

Definition after {St W A} (evs : list (St * event)) (r : Run St W A) : Run St W A :=
  {| timeline := (evs ++ timeline r)%list; page := page r;
     world := world r; completion := completion r |}.

Fixpoint run {St A W} `{!Browser W} (p : Proc St A) (s : St) (w : W) : Run St W A :=
  match p with
  | Ret a => {| timeline := []; page := s; world := w; completion := Fulfilled a |}
  | Throw m => {| timeline := []; page := s; world := w; completion := Rejected m |}
  | Read k => run (k s) s w
  | Update f k => run k (f s) w
  | Remove id k =>
      let '(o, w') := bookmarks_remove id w in
      after [(s, RemoveIssued id); (s, RemoveSettled id o)] (run (k o) s w')
  | Search url k =>
      let '(o, w') := bookmarks_search url w in
      after [(s, SearchIssued url); (s, SearchSettled url o)] (run (k o) s w')
  | Confirm text k =>
      let '(b, w') := window_confirm text w in
      after [(s, ConfirmShown text b)] (run (k b) s w')
  | Alert text k => after [(s, AlertShown text)] (run k s w)
  | SendResponse r k => after [(s, ResponseSent r)] (run k s w)
  | PostMessage r k => after [(s, MessagePosted r)] (run k s w)
  end.

(** Sequencing: [p] then [f] on its result; a throw of [p] skips [f]. *)
Fixpoint bind {St A B} (p : Proc St A) (f : A → Proc St B) : Proc St B :=
  match p with
  | Ret a => f a
  | Throw m => Throw m
  | Read k => Read (λ s, bind (k s) f)
  | Update g k => Update g (bind k f)
  | Remove id k => Remove id (λ o, bind (k o) f)
  | Search url k => Search url (λ o, bind (k o) f)
  | Confirm text k => Confirm text (λ b, bind (k b) f)
  | Alert text k => Alert text (bind k f)
  | SendResponse r k => SendResponse r (bind k f)
  | PostMessage r k => PostMessage r (bind k f)
  end.

(** [try { p } catch (error) { handler error.message }] *)
Fixpoint try_catch {St A} (p : Proc St A) (handler : string → Proc St A) : Proc St A :=
  match p with
  | Ret a => Ret a
  | Throw m => handler m
  | Read k => Read (λ s, try_catch (k s) handler)
  | Update g k => Update g (try_catch k handler)
  | Remove id k => Remove id (λ o, try_catch (k o) handler)
  | Search url k => Search url (λ o, try_catch (k o) handler)
  | Confirm text k => Confirm text (λ b, try_catch (k b) handler)
  | Alert text k => Alert text (try_catch k handler)
  | SendResponse r k => SendResponse r (try_catch k handler)
  | PostMessage r k => PostMessage r (try_catch k handler)
  end.

#[export] Instance Proc_ret {St} : MRet (Proc St) := λ A a, Ret a.
#[export] Instance Proc_bind {St} : MBind (Proc St) := λ A B f p, bind p f.

Definition modify {St} (f : St → St) : Proc St () := Update f (Ret ()).
Definition alert {St} (text : string) : Proc St () := Alert text (Ret ()).
Definition confirm {St} (text : string) : Proc St bool := Confirm text Ret.
Definition sendResponse {St} (r : Response) : Proc St () := SendResponse r (Ret ()).
Definition postMessage {St} (r : Response) : Proc St () := PostMessage r (Ret ()).

(** [await chrome.bookmarks.remove(id)] *)
Definition await_remove {St} (id : string) : Proc St unit :=
  Remove id (λ o, match o with
                  | Fulfilled _ => Ret ()
                  | Rejected m => Throw m
                  end).

(** [await chrome.bookmarks.search({ url })] *)
Definition await_search {St} (url : val) : Proc St (list BookmarkTreeNode) :=
  Search url (λ o, match o with
                   | Fulfilled nodes => Ret nodes
                   | Rejected m => Throw m
                   end).

(** [for (const x of items) { acc = body acc x }], the accumulator being
    the variables the body assigns. *)
Fixpoint for_of {St A X} (items : list X) (body : A → X → Proc St A) (acc : A)
  : Proc St A :=
  match items with
  | [] => Ret acc
  | x :: rest => bind (body acc x) (for_of rest body)
  end.

(** [promise.then(on_fulfilled).catch(on_rejected)] *)
Definition then_catch {St A B} (promise : Proc St A)
    (on_fulfilled : A → Proc St B) (on_rejected : string → Proc St B) : Proc St B :=
  try_catch (bind promise on_fulfilled) on_rejected.
End Procedures.

(** ** background.js *)

Section Background.
Context `{Engine} {St : Type}.

Definition delete_ok (idStr : string) : DeleteResult :=
  {| dr_id := idStr; dr_success := true; dr_error := None |}.

Definition delete_failed (idStr error_message : string) : DeleteResult :=
  {| dr_id := idStr; dr_success := false; dr_error := Some error_message |}.

Definition deleteBookmarks_item (results : list DeleteResult) (id : val)
  : Proc St (list DeleteResult) :=
  try_catch
    (let idStr := ToString id in
     await_remove idStr ;;
     mret (push results (delete_ok idStr)))
    (λ error_message,
       mret (push results (delete_failed (ToString id) error_message))).

Definition deleteBookmarks (bookmarkIds : val) : Proc St (list DeleteResult) :=
  match iterate bookmarkIds with
  | None => Throw (not_iterable_message "bookmarkIds" bookmarkIds)
  | Some ids => for_of ids deleteBookmarks_item []
  end.

Definition to_match (b : BookmarkTreeNode) : Match :=
  {| m_id := node_id b; m_title := node_title b;
     m_url := node_url b; m_parentId := node_parentId b |}.

Definition lookup_ok (url : val) (bookmarks : list BookmarkTreeNode) : LookupResult :=
  {| lr_url := url; lr_error := None; lr_bookmarks := to_match <$> bookmarks |}.

Definition lookup_failed (url : val) (error_message : string) : LookupResult :=
  {| lr_url := url; lr_error := Some error_message; lr_bookmarks := [] |}.

Definition findBookmarksByUrl_item (results : list LookupResult) (url : val)
  : Proc St (list LookupResult) :=
  try_catch
    (bookmarks ← await_search url;
     mret (push results (lookup_ok url bookmarks)))
    (λ error_message, mret (push results (lookup_failed url error_message))).

Definition findBookmarksByUrl (urls : val) : Proc St (list LookupResult) :=
  match iterate urls with
  | None => Throw (not_iterable_message "urls" urls)
  | Some items => for_of items findBookmarksByUrl_item []
  end.

Definition success_envelope (r : Results) : Response :=
  {| success := true; results := Some r; error := None; message := None |}.

Definition failure_envelope (error_message : string) : Response :=
  {| success := false; results := None; error := Some error_message; message := None |}.

Definition ping_envelope : Response :=
  {| success := true; results := None; error := None;
     message := Some "Extension is active" |}.

(** [request.name]; a [TypeError] when [request] is [null] or [undefined]. *)
Definition property (request : val) (name : string) : Proc St val :=
  match get request name with
  | Some v => Ret v
  | None => Throw (cannot_read_message request name)
  end.

(** The [chrome.runtime.onMessageExternal] listener. The result is what
    the listener returns ([Some true]: keep the channel open, [None]:
    [undefined]); the promise chain a branch starts is run to its end. *)
Definition onMessageExternal (request : val) : Proc St (option bool) :=
  action ← property request "action";
  if is_string action "deleteBookmarks" then
    bookmarkIds ← property request "bookmarkIds";
    then_catch (deleteBookmarks bookmarkIds)
      (λ results, sendResponse (success_envelope (DeleteResults results)))
      (λ error_message, sendResponse (failure_envelope error_message)) ;;
    mret (Some true)
  else if is_string action "ping" then
    sendResponse ping_envelope ;;
    mret (Some true)
  else if is_string action "findBookmarksByUrl" then
    urls ← property request "urls";
    then_catch (findBookmarksByUrl urls)
      (λ results, sendResponse (success_envelope (LookupResults results)))
      (λ error_message, sendResponse (failure_envelope error_message)) ;;
    mret (Some true)
  else mret None.

(** The [port.onMessage] listener that [chrome.runtime.onConnectExternal]
    installs on a connection. *)
Definition port_onMessage (message : val) : Proc St () :=
  action ← property message "action";
  if is_string action "deleteBookmarks" then
    try_catch
      (bookmarkIds ← property message "bookmarkIds";
       results ← deleteBookmarks bookmarkIds;
       postMessage (success_envelope (DeleteResults results)))
      (λ error_message, postMessage (failure_envelope error_message))
  else mret ().
End Background.

(** ** The manual delete page *)

(** The properties of the page's elements that the script reads or
    assigns. An entry of [resultsDiv_children] is a line of the result log:
    whether it is a success line (its class and its leading mark) and its
    message. *)
Record Page := {
  loadFileBtn_disabled : bool;
  pasteBtn_disabled : bool;
  deleteBtn_disabled : bool;
  clearBtn_disabled : bool;
  bookmarkIdsInput_disabled : bool;
  bookmarkIdsInput_value : string;
  countDisplay_textContent : string;
  progressDiv_show : bool;
  progressFill_width : string;
  progressText_content : string;
  resultsDiv_show : bool;
  resultsDiv_children : list (bool * string)
}.

Definition set_loadFileBtn_disabled (v : bool) '(Build_Page _ b c d e f g h i j k l) :=
  Build_Page v b c d e f g h i j k l.
Definition set_pasteBtn_disabled (v : bool) '(Build_Page a _ c d e f g h i j k l) :=
  Build_Page a v c d e f g h i j k l.
Definition set_deleteBtn_disabled (v : bool) '(Build_Page a b _ d e f g h i j k l) :=
  Build_Page a b v d e f g h i j k l.
Definition set_clearBtn_disabled (v : bool) '(Build_Page a b c _ e f g h i j k l) :=
  Build_Page a b c v e f g h i j k l.
Definition set_bookmarkIdsInput_disabled (v : bool) '(Build_Page a b c d _ f g h i j k l) :=
  Build_Page a b c d v f g h i j k l.
Definition set_bookmarkIdsInput_value (v : string) '(Build_Page a b c d e _ g h i j k l) :=
  Build_Page a b c d e v g h i j k l.
Definition set_countDisplay_textContent (v : string) '(Build_Page a b c d e f _ h i j k l) :=
  Build_Page a b c d e f v h i j k l.
Definition set_progressDiv_show (v : bool) '(Build_Page a b c d e f g _ i j k l) :=
  Build_Page a b c d e f g v i j k l.
Definition set_progressFill_width (v : string) '(Build_Page a b c d e f g h _ j k l) :=
  Build_Page a b c d e f g h v j k l.
Definition set_progressText_content (v : string) '(Build_Page a b c d e f g h i _ k l) :=
  Build_Page a b c d e f g h i v k l.
Definition set_resultsDiv_show (v : bool) '(Build_Page a b c d e f g h i j _ l) :=
  Build_Page a b c d e f g h i j v l.
Definition set_resultsDiv_children (v : list (bool * string)) '(Build_Page a b c d e f g h i j k _) :=
  Build_Page a b c d e f g h i j k v.

Definition LF : ascii := ascii_of_nat 10.
Definition newline : string := String LF "".

(** White space and line terminators among the code units below 256:
    tab, line feed, vertical tab, form feed, carriage return, space and
    no-break space. *)
Definition is_white_space (c : ascii) : bool :=
  bool_decide (nat_of_ascii c ∈ [9; 10; 11; 12; 13; 32; 160]).

(** [s.split(sep)] for a one-character separator. *)
Fixpoint split (sep : ascii) (s : string) : list string :=
  match s with
  | EmptyString => [""]
  | String c rest =>
      if bool_decide (c = sep) then "" :: split sep rest
      else match split sep rest with
           | [] => [String c ""]
           | first :: others => String c first :: others
           end
  end.

Fixpoint trimStart (s : string) : string :=
  match s with
  | EmptyString => ""
  | String c rest => if is_white_space c then trimStart rest else s
  end.

Fixpoint trimEnd (s : string) : string :=
  match s with
  | EmptyString => ""
  | String c rest =>
      match trimEnd rest with
      | EmptyString => if is_white_space c then "" else String c ""
      | kept => String c kept
      end
  end.

(** [s.trim()] *)
Definition trim (s : string) : string := trimEnd (trimStart s).

(** [s.startsWith(c)] for a one-character [c]. *)
Definition startsWith (c : ascii) (s : string) : bool :=
  match s with
  | String c' _ => bool_decide (c' = c)
  | EmptyString => false
  end.

(** The predicate of the [filter] in [getIds]. *)
Definition is_id_line (line : string) : bool :=
  (0 <? String.length line)%nat && negb (startsWith "#" line).

(** The normalisation [getIds] applies to the text of the input. *)
Definition ids_of_text (text : string) : list string :=
  List.filter is_id_line (trim <$> split LF text).

Definition getIds (p : Page) : list string :=
  ids_of_text (bookmarkIdsInput_value p).

Definition updateCount (p : Page) : Page :=
  let ids := getIds p in
  let p := set_countDisplay_textContent
             (pretty (length ids) +:+ " bookmark ID(s) loaded") p in
  set_deleteBtn_disabled (length ids =? 0)%nat p.

Definition addResult (success : bool) (message : string) (p : Page) : Page :=
  set_resultsDiv_children (push (resultsDiv_children p) (success, message)) p.

Section ManualPage.
Context `{Engine}.

(** [typeof item === 'object' ? item.id : item]; [None]: it throws. *)
Definition import_item (item : val) : option val :=
  if typeof_object item then get item "id" else Some item.

(** The text [reader.onload] puts in the input for a file whose text is
    [result]: the [try] block assigns [content] only when it runs to
    its end, and the [catch] swallows whatever it throws. *)
Definition import_content (result : string) : string :=
  match JSON_parse result with
  | None => result
  | Some json =>
      match json with
      | VArr items =>
          match mapM import_item items with
          | Some mapped => join newline mapped
          | None => result
          end
      | _ => result
      end
  end.

Definition reader_onload (result : string) : Proc Page () :=
  let content := import_content result in
  modify (set_bookmarkIdsInput_value content) ;;
  modify updateCount.

Definition confirm_text (n : nat) : string :=
  "Are you sure you want to delete " +:+ pretty n +:+ " bookmark(s)?"
  +:+ newline +:+ newline
  +:+ "This action cannot be undone and will sync to your account.".

(** The body of the delete loop for the item [id] at index [i]; the
  accumulator is [(successCount, errorCount)]. The ids are lines of the
  input, so [String(id)] is [id]. *)
Definition deleteBtn_item (total : nat) (counts : nat * nat) (item : nat * string)
  : Proc Page (nat * nat) :=
  let '(successCount, errorCount) := counts in
  let '(i, id) := item in
  modify (set_progressFill_width (percent_toFixed0 (i + 1) total +:+ "%")) ;;
  modify (set_progressText_content
            ("Deleting " +:+ pretty (i + 1)%nat +:+ " of " +:+ pretty total +:+ "...")) ;;
  try_catch
    (await_remove id ;;
     modify (addResult true ("Deleted bookmark ID: " +:+ id)) ;;
     mret (successCount + 1, errorCount)%nat)
    (λ error_message,
       modify (addResult false ("Failed ID " +:+ id +:+ ": " +:+ error_message)) ;;
       mret (successCount, errorCount + 1)%nat).

(** The click handler of the delete button. *)
Definition deleteBtn_click : Proc Page () :=
  Read (λ p,
    let ids := getIds p in
    if (length ids =? 0)%nat then alert "No bookmark IDs to delete."
    else
      ok ← confirm (confirm_text (length ids));
      if negb ok then mret ()
      else
        modify (set_deleteBtn_disabled true) ;;
        modify (set_loadFileBtn_disabled true) ;;
        modify (set_pasteBtn_disabled true) ;;
        modify (set_clearBtn_disabled true) ;;
        modify (set_bookmarkIdsInput_disabled true) ;;
        modify (set_progressDiv_show true) ;;
        modify (set_resultsDiv_show true) ;;
        modify (set_resultsDiv_children []) ;;
        let total := length ids in
        counts ← for_of (zip (seq 0 (length ids)) ids) (deleteBtn_item total) (0, 0)%nat;
        let '(successCount, errorCount) := counts in
        modify (set_progressFill_width "100%") ;;
        modify (set_progressText_content
                  ("<strong>Complete!</strong> Deleted: " +:+ pretty successCount
                   +:+ ", Failed: " +:+ pretty errorCount)) ;;
        (if (0 <? successCount)%nat
         then modify (addResult true
                        (newline +:+ "--- " +:+ pretty successCount
                         +:+ " bookmark(s) deleted and will sync to your account ---"))
         else mret ()) ;;
        modify (set_loadFileBtn_disabled false) ;;
        modify (set_pasteBtn_disabled false) ;;
        modify (set_clearBtn_disabled false) ;;
        modify (set_bookmarkIdsInput_disabled false) ;;
        modify (set_deleteBtn_disabled false) ;;
        if (errorCount =? 0)%nat
        then modify (set_bookmarkIdsInput_value "") ;; modify updateCount
        else mret ()).

(** The identifier an element of an imported array stands for, in the
    words of the specification: the [id] field of an element that is an
    object, the element itself when it is a scalar. *)
Definition element_id (item : val) : val :=
  match item with
  | VObj fields => own_property fields "id"
  | VArr _ => VUndefined
  | scalar => scalar
  end.

(** The identifier list of an imported file, in the words of the
    specification: the elements of a structured array, rejoined one per
    line, or else the raw text; then the normalisation of [getIds]. *)
Definition imported_ids_spec (text : string) : list string :=
  match JSON_parse text with
  | Some (VArr items) => ids_of_text (join newline (element_id <$> items))
  | _ => ids_of_text text
  end.

(** The identifier list the page holds once [reader.onload] has run on a
    file whose text is [text]. *)
Definition imported_ids {W} `{!Browser W} (text : string) (p : Page) (w : W)
  : list string :=
  getIds (page (run (reader_onload text) p w)).
End ManualPage.

(** ** A concrete engine and browser, to run the scripts on examples *)

Module Sample.

(** The white space of JSON: tab, line feed, carriage return, space. *)
Definition is_json_space (c : ascii) : bool :=
  bool_decide (nat_of_ascii c ∈ [9; 10; 13; 32]).

(** A reader for the fragment of JSON without fractions, exponents and
    [\u] escapes; numbers are integers. *)
Fixpoint skip_ws (cs : list ascii) : list ascii :=
  match cs with
  | c :: rest => if is_json_space c then skip_ws rest else cs
  | [] => []
  end.

Definition digit_of (c : ascii) : option Z :=
  let n := nat_of_ascii c in
  if bool_decide (48 ≤ n ≤ 57)%nat then Some (Z.of_nat (n - 48)) else None.

Fixpoint read_digits (acc : Z) (cs : list ascii) : Z * list ascii :=
  match cs with
  | c :: rest =>
      match digit_of c with
      | Some d => read_digits (10 * acc + d) rest
      | None => (acc, cs)
      end
  | [] => (acc, [])
  end.

(** The digits of a number: one at least, and no zero before another. *)
Definition read_natural (cs : list ascii) : option (Z * list ascii) :=
match cs with
| c :: rest =>
    match digit_of c, rest with
    | None, _ => None
    | Some 0%Z, d :: _ => if is_Some_dec (digit_of d) then None else Some (0%Z, rest)
    | Some _, _ => Some (read_digits 0 cs)
    end
| [] => None
end.

Definition read_number (cs : list ascii) : option (Z * list ascii) :=
match cs with
| c :: rest =>
    if bool_decide (c = "-"%char)
    then '(n, rest') ← read_natural rest; Some (- n, rest')%Z
    else read_natural cs
| [] => None
end.

Definition unescape (c : ascii) : option ascii :=
  if bool_decide (c = "n"%char) then Some LF
  else if bool_decide (c = "t"%char) then Some (ascii_of_nat 9)
  else if bool_decide (c = "r"%char) then Some (ascii_of_nat 13)
  else if bool_decide (c = "b"%char) then Some (ascii_of_nat 8)
  else if bool_decide (c = "f"%char) then Some (ascii_of_nat 12)
  else if bool_decide (c ∈ [ascii_of_nat 34; "\"%char; "/"%char]) then Some c
  else None.

(** The characters of a string literal after its opening quote. *)
Fixpoint read_string (cs : list ascii) : option (string * list ascii) :=
  match cs with
  | [] => None
  | c :: rest =>
      if bool_decide (c = ascii_of_nat 34) then Some ("", rest)
      else if bool_decide (c = "\"%char) then
        match rest with
        | e :: rest' =>
            c' ← unescape e;
            '(s, rest'') ← read_string rest';
            Some (String c' s, rest'')
        | [] => None
        end
      else if bool_decide (nat_of_ascii c < 32)%nat then None
      else '(s, rest') ← read_string rest; Some (String c s, rest')
  end.

Fixpoint strip_prefix (lit cs : list ascii) : option (list ascii) :=
  match lit, cs with
  | [], _ => Some cs
  | l :: lit', c :: cs' => if bool_decide (l = c) then strip_prefix lit' cs' else None
  | _ :: _, [] => None
  end.

Fixpoint read_value (fuel : nat) (cs : list ascii)
  : option (value Z * list ascii) :=
  match fuel with
  | 0%nat => None
  | S fuel =>
      match skip_ws cs with
      | [] => None
      | c :: rest =>
          if bool_decide (c = "["%char) then
            match skip_ws rest with
            | c' :: rest' =>
                if bool_decide (c' = "]"%char) then Some (VArr [], rest')
                else '(items, rest'') ← read_elements fuel rest; Some (VArr items, rest'')
            | [] => None
            end
          else if bool_decide (c = "{"%char) then
            match skip_ws rest with
            | c' :: rest' =>
                if bool_decide (c' = "}"%char) then Some (VObj [], rest')
                else '(fields, rest'') ← read_members fuel rest; Some (VObj fields, rest'')
            | [] => None
            end
          else if bool_decide (c = ascii_of_nat 34) then
            '(s, rest') ← read_string rest; Some (VStr s, rest')
          else if bool_decide (c = "t"%char) then
            rest' ← strip_prefix (code_units "rue") rest; Some (VBool true, rest')
          else if bool_decide (c = "f"%char) then
            rest' ← strip_prefix (code_units "alse") rest; Some (VBool false, rest')
          else if bool_decide (c = "n"%char) then
            rest' ← strip_prefix (code_units "ull") rest; Some (VNull, rest')
          else '(n, rest') ← read_number (c :: rest); Some (VNum n, rest')
      end
  end
with read_elements (fuel : nat) (cs : list ascii)
  : option (list (value Z) * list ascii) :=
  match fuel with
  | 0%nat => None
  | S fuel =>
      '(v, rest) ← read_value fuel cs;
      match skip_ws rest with
      | c :: rest' =>
          if bool_decide (c = ","%char) then
            '(vs, rest'') ← read_elements fuel rest'; Some (v :: vs, rest'')
          else if bool_decide (c = "]"%char) then Some ([v], rest')
          else None
      | [] => None
      end
  end
with read_members (fuel : nat) (cs : list ascii)
  : option (list (string * value Z) * list ascii) :=
  match fuel with
  | 0%nat => None
  | S fuel =>
      match skip_ws cs with
      | q :: rest =>
          if bool_decide (q = ascii_of_nat 34) then
            '(k, rest1) ← read_string rest;
            match skip_ws rest1 with
            | c :: rest2 =>
                if bool_decide (c = ":"%char) then
                  '(v, rest3) ← read_value fuel rest2;
                  match skip_ws rest3 with
                  | c' :: rest4 =>
                      if bool_decide (c' = ","%char) then
                        '(fs, rest5) ← read_members fuel rest4;
                        Some (if existsb (λ kv, bool_decide (kv.1 = k)) fs
                              then fs else (k, v) :: fs, rest5)
                      else if bool_decide (c' = "}"%char) then Some ([(k, v)], rest4)
                      else None
                  | [] => None
                  end
                else None
            | [] => None
            end
          else None
      | [] => None
      end
  end.

Definition parse (text : string) : option (value Z) :=
  '(v, rest) ← read_value (2 * String.length text + 2) (code_units text);
  match skip_ws rest with
  | [] => Some v
  | _ :: _ => None
  end.

(** A small natural number as a double. *)
Fixpoint float_of_nat (n : nat) : float :=
  match n with
  | 0%nat => 0%float
  | S n => (float_of_nat n + 1)%float
  end.

(** [toFixed(0)] of a double between 0 and 100: the integer nearest to it,
    the larger one of two equally near, that is the number of integers n
    from 1 to 100 with n - 0.5 at most the double. *)
Definition toFixed0 (x : float) : nat :=
  length (List.filter (λ n, PrimFloat.leb (float_of_nat n - 0.5)%float x) (seq 1 100)).

(** [(k / total * 100).toFixed(0)], the quotient and the product being
    those of doubles. *)
Definition percent (k total : nat) : string :=
  pretty (toFixed0 (float_of_nat k / float_of_nat total * 100)%float).

#[export] Instance engine : Engine := {|
  number := Z;
  number_to_string := pretty;
  not_iterable_message := λ name _, name +:+ " is not iterable";
  cannot_read_message := λ v name,
    "Cannot read properties of "
    +:+ match v with VNull => "null" | _ => "undefined" end
    +:+ " (reading '" +:+ name +:+ "')";
  JSON_parse := parse;
  percent_toFixed0 := percent
|}.

(** The bookmarks in the store and the answer of the operator to every
    confirmation. *)
Record World := {
  bookmarks : list BookmarkTreeNode;
  operator_accepts : bool
}.

Definition has_id (id : string) (b : BookmarkTreeNode) : bool :=
  bool_decide (node_id b = id).

Definition remove (id : string) (w : World) : settled () * World :=
  if existsb (has_id id) (bookmarks w)
  then (Fulfilled (),
        {| bookmarks := List.filter (λ b, negb (has_id id b)) (bookmarks w);
           operator_accepts := operator_accepts w |})
  else (Rejected "Can't find bookmark for id.", w).

Definition search (url : value Z) (w : World)
  : settled (list BookmarkTreeNode) * World :=
  match url with
  | VStr u =>
      (Fulfilled (List.filter (λ b, bool_decide (node_url b = Some u)) (bookmarks w)), w)
  | _ => (Rejected "Error in invocation of bookmarks.search", w)
  end.

#[export] Instance browser : Browser World := {|
  bookmarks_remove := remove;
  bookmarks_search := search;
  window_confirm := λ _ w, (operator_accepts w, w)
|}.

Definition bookmark (id url title : string) : BookmarkTreeNode :=
  {| node_id := id; node_parentId := Some "1"; node_index := None;
     node_url := Some url; node_title := title; node_dateAdded := None |}.

Definition store : World :=
  {| bookmarks := [bookmark "5" "https://a.example/" "A";
                   bookmark "6" "https://b.example/" "B";
                   bookmark "7" "https://a.example/" "A again"];
     operator_accepts := true |}.

Definition blank : Page :=
  {| loadFileBtn_disabled := false; pasteBtn_disabled := false;
     deleteBtn_disabled := true; clearBtn_disabled := false;
     bookmarkIdsInput_disabled := false; bookmarkIdsInput_value := "";
     countDisplay_textContent := "0 bookmark ID(s) loaded";
     progressDiv_show := false; progressFill_width := "0%";
     progressText_content := ""; resultsDiv_show := false;
     resultsDiv_children := [] |}.

(** The page after the operator typed [text] in the input. *)
Definition typed (text : string) : Page :=
  updateCount (set_bookmarkIdsInput_value text blank).

(** A string literal of a JSON text. *)
Definition quoted (s : string) : string :=
  String (ascii_of_nat 34) s +:+ String (ascii_of_nat 34) "".

Definition request (action : string) (payload_name : string) (payload : value Z)
  : value Z :=
  VObj [("action", VStr action); (payload_name, payload)].

Definition ping_request : value Z := VObj [("action", VStr "ping")].

Definition list_request : value Z := VObj [("action", VStr "listBookmarks")].

(** A [deleteBookmarks] request without [bookmarkIds]. *)
Definition bare_delete_request : value Z := VObj [("action", VStr "deleteBookmarks")].

Definition delete_request : value Z :=
  request "deleteBookmarks" "bookmarkIds" (VArr [VNum 5%Z; VStr "9"; VStr "6"]).

Definition null_array : string := "[null]".

Definition lookup_request : value Z :=
  request "findBookmarksByUrl" "urls" (VArr [VStr "https://a.example/"; VNum 3%Z]).

Definition empty_delete_request : value Z :=
  request "deleteBookmarks" "bookmarkIds" (VArr []).

(** The sample store with an operator who declines every confirmation. *)
Definition guarded_store : World :=
  {| bookmarks := bookmarks store; operator_accepts := false |}.

(** The text of a file holding the array of the strings 5 and 9. *)
Definition array_file : string :=
  "[" +:+ quoted "5" +:+ "," +:+ quoted "9" +:+ "]".

(** The text of a file holding a number, which is JSON but no array. *)
Definition number_file : string := "42".

End Sample.

(** ** Reading a timeline *)

(** Whether an event is a store call being issued or settling. *)
Definition is_store_event `{Engine} (e : event) : bool :=
match e with
| RemoveIssued _ | RemoveSettled _ _ | SearchIssued _ | SearchSettled _ _ => true
| _ => false
end.

Section Timelines.
Context `{Engine} {St : Type}.

(** The ids of the remove calls issued, in order. *)
Definition removes_issued (tl : list (St * event)) : list string :=
  omap (λ se, match se.2 with RemoveIssued id => Some id | _ => None end) tl.

(** The remove calls that settled, each with its outcome, in order. *)
Definition removes_settled (tl : list (St * event)) : list (string * settled ()) :=
  omap (λ se, match se.2 with RemoveSettled id o => Some (id, o) | _ => None end) tl.

Definition searches_issued (tl : list (St * event)) : list val :=
  omap (λ se, match se.2 with SearchIssued url => Some url | _ => None end) tl.

Definition searches_settled (tl : list (St * event))
  : list (val * settled (list BookmarkTreeNode)) :=
  omap (λ se, match se.2 with SearchSettled url o => Some (url, o) | _ => None end) tl.

(** The envelopes handed to [sendResponse], in order. *)
Definition responses_sent (tl : list (St * event)) : list Response :=
  omap (λ se, match se.2 with ResponseSent r => Some r | _ => None end) tl.

(** The envelopes handed to [port.postMessage], in order. *)
Definition messages_posted (tl : list (St * event)) : list Response :=
  omap (λ se, match se.2 with MessagePosted r => Some r | _ => None end) tl.

(** The events of a store call that settles with [o]. *)
Definition remove_events (id : string) (o : settled ()) : list event :=
  [RemoveIssued id; RemoveSettled id o].

Definition search_events (url : val) (o : settled (list BookmarkTreeNode)) : list event :=
  [SearchIssued url; SearchSettled url o].

(** The entry [deleteBookmarks] records for a call that settles with [o]. *)
Definition delete_entry (idStr : string) (o : settled ()) : DeleteResult :=
  match o with
  | Fulfilled _ => delete_ok idStr
  | Rejected m => delete_failed idStr m
  end.

Definition lookup_entry (url : val) (o : settled (list BookmarkTreeNode)) : LookupResult :=
  match o with
  | Fulfilled bookmarks => lookup_ok url bookmarks
  | Rejected m => lookup_failed url m
  end.

(** The store called once per item, in order, each call on the world
    the previous one left: the outcomes and the final world. *)
Fixpoint call_each {W X O} (call : X → W → O * W) (xs : list X) (w : W) : list O * W :=
  match xs with
  | [] => ([], w)
  | x :: rest =>
      let '(o, w1) := call x w in
      let '(os, w2) := call_each call rest w1 in
      (o :: os, w2)
  end.

(** The action tag of a request: the string under [action], if any. *)
Definition action_tag (request : val) : option string :=
match get request "action" with
| Some (VStr tag) => Some tag
| _ => None
end.

(** An event of the one-shot channel as the persistent channel shows it:
    the envelope is posted on the connection instead of being handed to
    the reply callback. *)
Definition as_posted (e : event) : event :=
match e with
| ResponseSent r => MessagePosted r
| _ => e
end.

Definition is_rejected {A} (o : settled A) : bool :=
match o with Rejected _ => true | Fulfilled _ => false end.

(** The number of remove calls of a timeline that the store rejected. *)
Definition failures (tl : list (St * event)) : nat :=
length (List.filter (λ io, is_rejected io.2) (removes_settled tl)).

(** The page state of each store event of a timeline. *)
Definition store_snapshots (tl : list (St * event)) : list St :=
(List.filter (λ se, is_store_event se.2) tl).*1.
End Timelines.

(** ** Reading a page *)

(** All five interactive controls report disabled. *)
Definition controls_disabled (p : Page) : bool :=
loadFileBtn_disabled p && pasteBtn_disabled p && clearBtn_disabled p
&& deleteBtn_disabled p && bookmarkIdsInput_disabled p.

(** All five interactive controls report enabled. *)
Definition controls_enabled (p : Page) : bool :=
negb (loadFileBtn_disabled p) && negb (pasteBtn_disabled p)
&& negb (clearBtn_disabled p) && negb (deleteBtn_disabled p)
&& negb (bookmarkIdsInput_disabled p).

(** Two pages agree on the five controls and on the text of the input. *)
Definition same_controls (p q : Page) : Prop :=
loadFileBtn_disabled q = loadFileBtn_disabled p
∧ pasteBtn_disabled q = pasteBtn_disabled p
∧ clearBtn_disabled q = clearBtn_disabled p
∧ deleteBtn_disabled q = deleteBtn_disabled p
∧ bookmarkIdsInput_disabled q = bookmarkIdsInput_disabled p
∧ bookmarkIdsInput_value q = bookmarkIdsInput_value p.

(** The page when the delete loop is entered: the assignments the click
    handler makes between the confirmation and the loop. *)
Definition run_started (p : Page) : Page :=
set_resultsDiv_children []
  (set_resultsDiv_show true
     (set_progressDiv_show true
        (set_bookmarkIdsInput_disabled true
           (set_clearBtn_disabled true
              (set_pasteBtn_disabled true
                 (set_loadFileBtn_disabled true
                    (set_deleteBtn_disabled true p))))))).

(** The line the delete loop adds to the result log for a call that
    settles with [o]. *)
Definition item_line (id : string) (o : settled ()) : bool * string :=
match o with
| Fulfilled _ => (true, "Deleted bookmark ID: " +:+ id)
| Rejected m => (false, "Failed ID " +:+ id +:+ ": " +:+ m)
end.

Definition count_fulfilled {A} (os : list (settled A)) : nat :=
length (List.filter (λ o, negb (is_rejected o)) os).

Definition count_rejected {A} (os : list (settled A)) : nat :=
length (List.filter is_rejected os).

(** The closing line of the result log of a run with [successCount]
    deletions: none when nothing was deleted. *)
Definition summary_lines (successCount : nat) : list (bool * string) :=
if (0 <? successCount)%nat
then [(true, newline +:+ "--- " +:+ pretty successCount
             +:+ " bookmark(s) deleted and will sync to your account ---")]
else [].

(** ** The text of the input *)

(** The lines [ids], one per line: what [ids.join('\n')] gives for strings. *)
Fixpoint lines_text (ids : list string) : string :=
match ids with
| [] => ""
| [id] => id
| id :: rest => id +:+ newline +:+ lines_text rest
end.

(** What [getIds] keeps of a line as it is: it is not empty, has no white
    space at either end, does not start with the comment mark and holds no
    line feed. *)
Definition is_id (s : string) : Prop :=
s ≠ "" ∧ trim s = s ∧ startsWith "#" s = false ∧ LF ∉ code_units s.

Section ImportReading.
Context `{Engine}.

(** What [join] writes for an element: nothing for [undefined] and
    [null], the string conversion of any other. *)
Definition element_text (v : val) : string :=
match v with
| VUndefined | VNull => ""
| _ => ToString v
end.
End ImportReading.

Section RouterReading.
Context `{Engine}.

(** Whether the action tag of a request is one the one-shot listener
    has a branch for. *)
Definition recognised (request : val) : bool :=
bool_decide (action_tag request
             ∈ [Some "deleteBookmarks"; Some "ping"; Some "findBookmarksByUrl"]).

(** The error a result entry carries for a call that settles with [o]. *)
Definition error_of {A} (o : settled A) : option string :=
match o with
| Fulfilled _ => None
| Rejected m => Some m
end.

(** The matches a lookup entry carries for a search that settles with
    [o]: for each bookmark the store returned, its id, title, url and
    parent id. *)
Definition matches_of (o : settled (list BookmarkTreeNode)) : list Match :=
match o with
| Fulfilled nodes =>
    (λ b, {| m_id := node_id b; m_title := node_title b;
             m_url := node_url b; m_parentId := node_parentId b |}) <$> nodes
| Rejected _ => []
end.
End RouterReading.

(** ** The other handlers of the page *)

Section PageHandlers.
Context `{Engine}.

(** The click handler of the clear button. *)
Definition clearBtn_click : Proc Page () :=
  modify (set_bookmarkIdsInput_value "") ;;
  modify (set_resultsDiv_show false) ;;
  modify (set_resultsDiv_children []) ;;
  modify (set_progressDiv_show false) ;;
  modify (set_progressFill_width "0%") ;;
  modify updateCount.

(** The click handler of the paste button, for a call of
    [navigator.clipboard.readText()] that settles with [clipboard]. *)
Definition pasteBtn_click (clipboard : settled string) : Proc Page () :=
  try_catch
    (text ← match clipboard with
            | Fulfilled text => Ret text
            | Rejected m => Throw m
            end;
     modify (set_bookmarkIdsInput_value text) ;;
     modify updateCount)
    (λ _, alert "Could not access clipboard. Please paste manually with Ctrl+V.").

(** An [input] event of the text input: the browser has put [text] in
    the input, then the listener, [updateCount], runs. *)
Definition bookmarkIdsInput_input (text : string) : Proc Page () :=
  modify (set_bookmarkIdsInput_value text) ;;
  modify updateCount.

(** The page states at which a remove call is issued, in order. *)
Definition issue_snapshots {St} (tl : list (St * event)) : list St :=
omap (λ se, match se.2 with RemoveIssued _ => Some se.1 | _ => None end) tl.
End PageHandlers.

(** The count shown and the delete button agree with the text of the
    input: the button is disabled exactly when the text holds no id. *)
Definition count_consistent (p : Page) : Prop :=
deleteBtn_disabled p = (length (getIds p) =? 0)%nat
∧ countDisplay_textContent p = pretty (length (getIds p)) +:+ " bookmark ID(s) loaded".

(** Two pages differ at most in the progress bar, the progress text and
    the result log. *)
Definition same_outside_progress (p q : Page) : Prop :=
same_controls p q
∧ countDisplay_textContent q = countDisplay_textContent p
∧ progressDiv_show q = progressDiv_show p
∧ resultsDiv_show q = resultsDiv_show p.

(** The text of the progress line while item [k] of [total] is deleted. *)
Definition deleting_text (k total : nat) : string :=
"Deleting " +:+ pretty k +:+ " of " +:+ pretty total +:+ "...".

(** The text of the progress line when a run is over. *)
Definition complete_text (successCount errorCount : nat) : string :=
"<strong>Complete!</strong> Deleted: " +:+ pretty successCount
+:+ ", Failed: " +:+ pretty errorCount.

(** ** Running procedures *)

(** Expose the sequencing of a procedure and run its leading [Ret]s. *)
Ltac proc_simpl := unfold mbind, Proc_bind, mret, Proc_ret; cbn [bind].

Section RunLemmas.
Context `{Engine} {St W : Type} `{!Browser W}.

Lemma after_after {A} (l1 l2 : list (St * event)) (r : Run St W A) :
  after l1 (after l2 r) = after (l1 ++ l2) r.
Proof. unfold after; simpl. by rewrite (assoc_L (++)). Qed.

Lemma after_nil {A} (r : Run St W A) : after [] r = r.
Proof. by destruct r. Qed.

(** Running [bind p f]: [p] runs first; [f] runs on its result, from the
    page and the world [p] left, unless [p] throws. *)
Lemma run_bind {A B} (p : Proc St A) (f : A → Proc St B) s w :
  run (bind p f) s w =
  let r := run p s w in
  match completion r with
  | Fulfilled a => after (timeline r) (run (f a) (page r) (world r))
  | Rejected m =>
      {| timeline := timeline r; page := page r; world := world r;
         completion := Rejected m |}
  end.
Proof.
  revert s w.
  induction p as [a|m|k IH|g k IH|id k IH|url k IH|text k IH|text k IH|r k IH|r k IH];
    intros s w; simpl.
  - by rewrite after_nil.
  - done.
  - apply IH.
  - apply IH.
  - destruct (bookmarks_remove id w) as [o w1]. rewrite IH. simpl.
    destruct (completion (run (k o) s w1)); [by rewrite after_after|done].
  - destruct (bookmarks_search url w) as [o w1]. rewrite IH. simpl.
    destruct (completion (run (k o) s w1)); [by rewrite after_after|done].
  - destruct (window_confirm text w) as [b w1]. rewrite IH. simpl.
    destruct (completion (run (k b) s w1)); [by rewrite after_after|done].
  - rewrite IH. simpl. destruct (completion (run k s w)); [by rewrite after_after|done].
  - rewrite IH. simpl. destruct (completion (run k s w)); [by rewrite after_after|done].
  - rewrite IH. simpl. destruct (completion (run k s w)); [by rewrite after_after|done].
Qed.

(** Running [try_catch p handler]: the handler runs only when [p]
    throws, from the page and the world [p] left. *)
Lemma run_try_catch {A} (p : Proc St A) (handler : string → Proc St A) s w :
  run (try_catch p handler) s w =
  let r := run p s w in
  match completion r with
  | Fulfilled a =>
      {| timeline := timeline r; page := page r; world := world r;
         completion := Fulfilled a |}
  | Rejected m => after (timeline r) (run (handler m) (page r) (world r))
  end.
Proof.
  revert s w.
  induction p as [a|m|k IH|g k IH|id k IH|url k IH|text k IH|text k IH|r k IH|r k IH];
    intros s w; simpl.
  - done.
  - by rewrite after_nil.
  - apply IH.
  - apply IH.
  - destruct (bookmarks_remove id w) as [o w1]. rewrite IH. simpl.
    destruct (completion (run (k o) s w1)); [done|by rewrite after_after].
  - destruct (bookmarks_search url w) as [o w1]. rewrite IH. simpl.
    destruct (completion (run (k o) s w1)); [done|by rewrite after_after].
  - destruct (window_confirm text w) as [b w1]. rewrite IH. simpl.
    destruct (completion (run (k b) s w1)); [done|by rewrite after_after].
  - rewrite IH. simpl. destruct (completion (run k s w)); [done|by rewrite after_after].
  - rewrite IH. simpl. destruct (completion (run k s w)); [done|by rewrite after_after].
  - rewrite IH. simpl. destruct (completion (run k s w)); [done|by rewrite after_after].
Qed.
End RunLemmas.

Section BackgroundLemmas.
Context `{Engine} {St W : Type} `{!Browser W}.

Lemma call_each_length {X O} (call : X → W → O * W) xs w :
  length (call_each call xs w).1 = length xs.
Proof.
  revert w. induction xs as [|x xs IH]; intros w; simpl; [done|].
  destruct (call x w) as [o w1]. specialize (IH w1).
  destruct (call_each call xs w1) as [os w2]. simpl in *. by rewrite IH.
Qed.

Lemma run_deleteBookmarks_item results id (s : St) (w : W) :
  run (deleteBookmarks_item results id) s w =
  let '(o, w1) := bookmarks_remove (ToString id) w in
  {| timeline := [(s, RemoveIssued (ToString id)); (s, RemoveSettled (ToString id) o)];
     page := s; world := w1;
     completion := Fulfilled (push results (delete_entry (ToString id) o)) |}.
Proof.
  unfold deleteBookmarks_item. rewrite run_try_catch. simpl.
  destruct (bookmarks_remove (ToString id) w) as [[[]|m] w1]; reflexivity.
Qed.

Lemma run_findBookmarksByUrl_item results url (s : St) (w : W) :
  run (findBookmarksByUrl_item results url) s w =
  let '(o, w1) := bookmarks_search url w in
  {| timeline := [(s, SearchIssued url); (s, SearchSettled url o)];
     page := s; world := w1;
     completion := Fulfilled (push results (lookup_entry url o)) |}.
Proof.
  unfold findBookmarksByUrl_item. rewrite run_try_catch. simpl.
  destruct (bookmarks_search url w) as [[nodes|m] w1]; reflexivity.
Qed.

(** The delete loop, whatever the store answers: one remove call per
    item, in order, and one entry per call. *)
Lemma run_deleteBookmarks_loop ids results (s : St) (w : W) :
  run (for_of ids deleteBookmarks_item results) s w =
  let '(os, w') := call_each bookmarks_remove (ToString <$> ids) w in
  {| timeline := (s,.) <$> mjoin (zip_with remove_events (ToString <$> ids) os);
     page := s; world := w';
     completion := Fulfilled (results ++ zip_with delete_entry (ToString <$> ids) os) |}.
Proof.
  revert results w. induction ids as [|id ids IH]; intros results w.
  - simpl. by rewrite (right_id_L [] (++)).
  - cbn [for_of]. rewrite run_bind, run_deleteBookmarks_item.
    rewrite fmap_cons. cbn [call_each].
    destruct (bookmarks_remove (ToString id) w) as [o w1]. cbn [completion page world].
    rewrite IH.
    destruct (call_each bookmarks_remove (ToString <$> ids) w1) as [os w2].
    unfold after, push. simpl. by rewrite <- (assoc_L (++)).
Qed.

Lemma run_findBookmarksByUrl_loop urls results (s : St) (w : W) :
  run (for_of urls findBookmarksByUrl_item results) s w =
  let '(os, w') := call_each bookmarks_search urls w in
  {| timeline := (s,.) <$> mjoin (zip_with search_events urls os);
     page := s; world := w';
     completion := Fulfilled (results ++ zip_with lookup_entry urls os) |}.
Proof.
  revert results w. induction urls as [|url urls IH]; intros results w.
  - simpl. by rewrite (right_id_L [] (++)).
  - cbn [for_of]. rewrite run_bind, run_findBookmarksByUrl_item.
    cbn [call_each].
    destruct (bookmarks_search url w) as [o w1]. cbn [completion page world].
    rewrite IH.
    destruct (call_each bookmarks_search urls w1) as [os w2].
    unfold after, push. simpl. by rewrite <- (assoc_L (++)).
Qed.

Lemma run_deleteBookmarks_array ids (s : St) (w : W) :
  run (deleteBookmarks (VArr ids)) s w =
  let '(os, w') := call_each bookmarks_remove (ToString <$> ids) w in
  {| timeline := (s,.) <$> mjoin (zip_with remove_events (ToString <$> ids) os);
     page := s; world := w';
     completion := Fulfilled (zip_with delete_entry (ToString <$> ids) os) |}.
Proof. apply run_deleteBookmarks_loop. Qed.

Lemma run_findBookmarksByUrl_array urls (s : St) (w : W) :
  run (findBookmarksByUrl (VArr urls)) s w =
  let '(os, w') := call_each bookmarks_search urls w in
  {| timeline := (s,.) <$> mjoin (zip_with search_events urls os);
     page := s; world := w';
     completion := Fulfilled (zip_with lookup_entry urls os) |}.
Proof. apply run_findBookmarksByUrl_loop. Qed.

Lemma dr_id_delete_entry idStr o : dr_id (delete_entry idStr o) = idStr.
Proof. by destruct o. Qed.


Lemma fmap_zip_with_fst {X O R} (f : X → O → R) (g : R → X) xs os :
  (∀ x o, g (f x o) = x) → length os = length xs →
  g <$> zip_with f xs os = xs.
Proof.
  intros Hg. revert os. induction xs as [|x xs IH]; intros [|o os] Hlen;
    simpl in *; try done.
  rewrite Hg, IH; [done|lia].
Qed.
End BackgroundLemmas.

Section TimelineLemmas.
Context `{Engine} {St : Type}.


Lemma removes_issued_batch (s : St) ids os :
  length os = length ids →
  removes_issued ((s,.) <$> mjoin (zip_with remove_events ids os)) = ids.
Proof.
  revert os. induction ids as [|id ids IH]; intros [|o os] Hlen; simpl in *; try done.
  unfold removes_issued in *. simpl. rewrite IH; [done|lia].
Qed.

Lemma removes_settled_batch (s : St) ids os :
  removes_settled ((s,.) <$> mjoin (zip_with remove_events ids os)) = zip ids os.
Proof.
  revert os. induction ids as [|id ids IH]; intros [|o os]; simpl in *; try done.
  unfold removes_settled in *. simpl. by rewrite IH.
Qed.


Lemma searches_settled_batch (s : St) urls os :
  searches_settled ((s,.) <$> mjoin (zip_with search_events urls os)) = zip urls os.
Proof.
  revert os. induction urls as [|url urls IH]; intros [|o os]; simpl in *; try done.
  unfold searches_settled in *. simpl. by rewrite IH.
Qed.
End TimelineLemmas.

(** ** The batch handlers *)

Section BatchProperties.
Context `{Engine} {St W : Type} `{!Browser W}.


End BatchProperties.


(** ** The message router *)

Section RouterLemmas.
Context `{Engine} {St W : Type} `{!Browser W}.

Lemma action_tag_is_string request tag :
  action_tag request = Some tag →
  ∃ action, get request "action" = Some action ∧ ∀ t, is_string action t = bool_decide (tag = t).
Proof.
  unfold action_tag. destruct (get request "action") as [[]|]; try done.
  intros [= ->]. eauto.
Qed.

Lemma action_tag_other request action :
  get request "action" = Some action →
  ∀ t, action_tag request ≠ Some t → is_string action t = false.
Proof.
  unfold action_tag. intros -> t Ht. destruct action; try done.
  simpl. apply bool_decide_eq_false. congruence.
Qed.

(** The one-shot listener on a [deleteBookmarks] request: the batch runs,
    then exactly one envelope is sent, chosen by how the batch completed. *)
Lemma run_onMessageExternal_delete request payload (s : St) (w : W) :
  action_tag request = Some "deleteBookmarks" →
  get request "bookmarkIds" = Some payload →
  run (onMessageExternal request) s w =
  let r := run (deleteBookmarks payload) s w in
  {| timeline :=
       timeline r ++
       [(page r, ResponseSent
                   match completion r with
                   | Fulfilled results => success_envelope (DeleteResults results)
                   | Rejected m => failure_envelope m
                   end)];
     page := page r; world := world r; completion := Fulfilled (Some true) |}.
Proof.
  intros (action & Hact & Htag)%action_tag_is_string Hpayload.
  unfold onMessageExternal, property. rewrite Hact. proc_simpl.
  rewrite Htag, bool_decide_eq_true_2 by done.
  rewrite Hpayload. proc_simpl.
  rewrite run_bind. unfold then_catch. rewrite run_try_catch, run_bind.
  destruct (run (deleteBookmarks payload) s w) as [tl pg wd [results|m]]; simpl;
    unfold after; simpl; by rewrite ?(right_id_L [] (++)).
Qed.

Lemma run_port_onMessage_delete request payload (s : St) (w : W) :
  action_tag request = Some "deleteBookmarks" →
  get request "bookmarkIds" = Some payload →
  run (port_onMessage request) s w =
  let r := run (deleteBookmarks payload) s w in
  {| timeline :=
       timeline r ++
       [(page r, MessagePosted
                   match completion r with
                   | Fulfilled results => success_envelope (DeleteResults results)
                   | Rejected m => failure_envelope m
                   end)];
     page := page r; world := world r; completion := Fulfilled () |}.
Proof.
  intros (action & Hact & Htag)%action_tag_is_string Hpayload.
  unfold port_onMessage, property. rewrite Hact. proc_simpl.
  rewrite Htag, bool_decide_eq_true_2 by done.
  rewrite Hpayload. proc_simpl.
  rewrite run_try_catch, run_bind.
  destruct (run (deleteBookmarks payload) s w) as [tl pg wd [results|m]]; simpl;
    unfold after; simpl; by rewrite ?(right_id_L [] (++)).
Qed.


Lemma run_deleteBookmarks_not_iterable payload (s : St) (w : W) :
  iterate payload = None →
  run (deleteBookmarks payload) s w =
  {| timeline := []; page := s; world := w;
     completion := Rejected (not_iterable_message "bookmarkIds" payload) |}.
Proof. intros Hit. unfold deleteBookmarks. by rewrite Hit. Qed.

Lemma responses_sent_removes (s : St) ids os :
  responses_sent ((s,.) <$> mjoin (zip_with remove_events ids os)) = [].
Proof.
  revert os. induction ids as [|id ids IH]; intros [|o os]; try done.
  unfold responses_sent in *. simpl. apply IH.
Qed.

Lemma messages_posted_removes (s : St) ids os :
  messages_posted ((s,.) <$> mjoin (zip_with remove_events ids os)) = [].
Proof.
  revert os. induction ids as [|id ids IH]; intros [|o os]; try done.
  unfold messages_posted in *. simpl. apply IH.
Qed.

Lemma snd_pair_fmap {X} (s : St) (l : list X) : ((s,.) <$> l).*2 = l.
Proof. induction l as [|x l IH]; simpl; [done|]. by f_equal. Qed.

Lemma as_posted_removes ids os :
  as_posted <$> mjoin (zip_with remove_events ids os)
  = mjoin (zip_with remove_events ids os).
Proof.
  revert os. induction ids as [|id ids IH]; intros [|o os]; try done.
  simpl. by rewrite IH.
Qed.



Lemma action_tag_get request tag name :
  action_tag request = Some tag → ∃ v, get request name = Some v.
Proof.
  unfold action_tag. destruct request; simpl; try done; eauto.
Qed.

Lemma run_unrecognised request (s : St) (w : W) :
  action_tag request ≠ Some "deleteBookmarks" →
  action_tag request ≠ Some "ping" →
  action_tag request ≠ Some "findBookmarksByUrl" →
  timeline (run (onMessageExternal request) s w) = []
  ∧ world (run (onMessageExternal request) s w) = w.
Proof.
  intros Hd Hp Hf. unfold onMessageExternal, property.
  destruct (get request "action") as [action|] eqn:Hact; [|done].
  proc_simpl.
  by rewrite !(action_tag_other request action Hact).
Qed.

Lemma run_port_not_delete request (s : St) (w : W) :
  action_tag request ≠ Some "deleteBookmarks" →
  timeline (run (port_onMessage request) s w) = []
  ∧ world (run (port_onMessage request) s w) = w.
Proof.
  intros Hd. unfold port_onMessage, property.
  destruct (get request "action") as [action|] eqn:Hact; [|done].
  proc_simpl.
  by rewrite !(action_tag_other request action Hact).
Qed.
End RouterLemmas.

Section RouterProperties.
Context `{Engine} {St W : Type} `{!Browser W}.


(** C10. A [deleteBookmarks] request on the one-shot channel whose
    [bookmarkIds] is absent or cannot be iterated gets exactly one
    response, [{success: false, error}], and no store call is made: the
    response is the only event and the store is left as it was. *)
Theorem structural_fault_single_failure (request payload : val) (s : St) (w : W) :
  action_tag request = Some "deleteBookmarks" →
  get request "bookmarkIds" = Some payload →
  iterate payload = None →
  (timeline (run (onMessageExternal request) s w)).*2
    = [ResponseSent
         {| success := false; results := None;
            error := Some (not_iterable_message "bookmarkIds" payload);
            message := None |}]
  ∧ removes_issued (timeline (run (onMessageExternal request) s w)) = []
  ∧ searches_issued (timeline (run (onMessageExternal request) s w)) = []
  ∧ world (run (onMessageExternal request) s w) = w.
Proof.
  intros Htag Hpayload Hit.
  rewrite (run_onMessageExternal_delete request payload s w Htag Hpayload).
  by rewrite run_deleteBookmarks_not_iterable.
Qed.

(** C5. A request whose action tag is none of [ping], [deleteBookmarks]
    and [findBookmarksByUrl] is dropped on both transports: the listener
    sends no response, posts no message and calls the store not at all. *)
Theorem unrecognised_action_dropped (request : val) (s : St) (w : W) :
  action_tag request ≠ Some "deleteBookmarks" →
  action_tag request ≠ Some "ping" →
  action_tag request ≠ Some "findBookmarksByUrl" →
  (timeline (run (onMessageExternal request) s w) = []
   ∧ world (run (onMessageExternal request) s w) = w)
  ∧ (timeline (run (port_onMessage request) s w) = []
     ∧ world (run (port_onMessage request) s w) = w).
Proof.
  intros Hd Hp Hf. split.
  - by apply run_unrecognised.
  - by apply run_port_not_delete.
Qed.

(** C4, as the code has it. On a persistent connection only
    [deleteBookmarks] is served: such a request produces the events of the
    same request on the one-shot channel, in the same order, the envelope
    being posted on the connection instead of handed to the reply
    callback, and leaves the store in the same state. Every other request
    on a persistent connection, [ping] and [findBookmarksByUrl] included,
    produces no event at all. *)
Theorem persistent_channel_serves_delete_only (request : val) (s : St) (w : W) :
  (action_tag request = Some "deleteBookmarks" →
     (timeline (run (port_onMessage request) s w)).*2
       = as_posted <$> (timeline (run (onMessageExternal request) s w)).*2
     ∧ messages_posted (timeline (run (port_onMessage request) s w))
       = responses_sent (timeline (run (onMessageExternal request) s w))
     ∧ world (run (port_onMessage request) s w)
       = world (run (onMessageExternal request) s w))
  ∧ (action_tag request ≠ Some "deleteBookmarks" →
     timeline (run (port_onMessage request) s w) = []
     ∧ world (run (port_onMessage request) s w) = w).
Proof.
  split; [|apply run_port_not_delete].
  intros Htag.
  destruct (action_tag_get request _ "bookmarkIds" Htag) as [payload Hpayload].
  rewrite (run_onMessageExternal_delete request payload s w Htag Hpayload).
  rewrite (run_port_onMessage_delete request payload s w Htag Hpayload).
  cbn [timeline world].
  unfold deleteBookmarks. destruct (iterate payload) as [ids|]; [|done].
  rewrite run_deleteBookmarks_loop.
  destruct (call_each bookmarks_remove (ToString <$> ids) w) as [os w'].
  cbn [timeline page completion world].
  rewrite !fmap_app, snd_pair_fmap, as_posted_removes. split; [done|].
  split; [|done].
  unfold messages_posted at 1. unfold responses_sent at 1. rewrite !omap_app.
  fold (messages_posted ((s,.) <$> mjoin (zip_with remove_events (ToString <$> ids) os))).
  fold (responses_sent ((s,.) <$> mjoin (zip_with remove_events (ToString <$> ids) os))).
  by rewrite messages_posted_removes, responses_sent_removes.
Qed.
End RouterProperties.

(** ** The manual delete page *)

Section PageLemmas.
Context `{Engine} {W : Type} `{!Browser W}.


Lemma same_controls_trans p q r :
  same_controls p q → same_controls q r → same_controls p r.
Proof. unfold same_controls. intros (?&?&?&?&?&?) (?&?&?&?&?&?). repeat split; congruence. Qed.

Lemma same_controls_progressFill v p : same_controls p (set_progressFill_width v p).
Proof. by destruct p. Qed.

Lemma same_controls_progressText v p : same_controls p (set_progressText_content v p).
Proof. by destruct p. Qed.

Lemma same_controls_addResult b m p : same_controls p (addResult b m p).
Proof. by destruct p. Qed.

Lemma resultsDiv_children_addResult b m p :
  resultsDiv_children (addResult b m p) = resultsDiv_children p ++ [(b, m)].
Proof. by destruct p. Qed.

Lemma resultsDiv_children_progress v v' p :
  resultsDiv_children (set_progressText_content v (set_progressFill_width v' p))
  = resultsDiv_children p.
Proof. by destruct p. Qed.

(** One turn of the delete loop of the page. *)
Lemma run_deleteBtn_item total sc ec i id (p : Page) (w : W) :
  run (deleteBtn_item total (sc, ec) (i, id)) p w =
  let '(o, w1) := bookmarks_remove id w in
  let p1 := set_progressText_content
              ("Deleting " +:+ pretty (i + 1)%nat +:+ " of " +:+ pretty total +:+ "...")
              (set_progressFill_width (percent_toFixed0 (i + 1) total +:+ "%") p) in
  {| timeline := [(p1, RemoveIssued id); (p1, RemoveSettled id o)];
     page := addResult (item_line id o).1 (item_line id o).2 p1;
     world := w1;
     completion := Fulfilled (if is_rejected o then (sc, ec + 1)%nat
                               else (sc + 1, ec)%nat) |}.
Proof.
  unfold deleteBtn_item, modify. proc_simpl. cbn [run].
  rewrite run_try_catch. unfold await_remove. cbn [bind run].
  destruct (bookmarks_remove id w) as [[[]|m] w1]; reflexivity.
Qed.

(** The delete loop of the page, whatever the store answers. *)
Lemma run_deleteBtn_loop total (items : list (nat * string)) sc ec (p : Page) (w : W) :
  let r := run (for_of items (deleteBtn_item total) (sc, ec)) p w in
  let os := (call_each bookmarks_remove items.*2 w).1 in
  (timeline r).*2 = mjoin (zip_with remove_events items.*2 os)
  ∧ Forall (same_controls p) (timeline r).*1
  ∧ same_controls p (page r)
  ∧ resultsDiv_children (page r)
    = resultsDiv_children p ++ zip_with item_line items.*2 os
  ∧ world r = (call_each bookmarks_remove items.*2 w).2
  ∧ completion r = Fulfilled (sc + count_fulfilled os, ec + count_rejected os)%nat.
Proof.
  revert sc ec p w. induction items as [|[i id] items IH]; intros sc ec p w.
  - simpl. rewrite (right_id_L [] (++)), !Nat.add_0_r.
    repeat split; try done. 
  - cbn [for_of]. rewrite run_bind, run_deleteBtn_item.
    rewrite fmap_cons. cbn [snd call_each].
    destruct (bookmarks_remove id w) as [o w1]. cbn zeta. cbn [completion page world timeline].
    set (p1 := set_progressText_content _ _).
    set (p2 := addResult _ _ p1).
    set (counts := if is_rejected o then _ else _).
    assert (same_controls p p1) as Hp1.
    { eapply same_controls_trans;
        [apply same_controls_progressFill|apply same_controls_progressText]. }
    assert (same_controls p p2) as Hp2.
    { eapply same_controls_trans; [exact Hp1|apply same_controls_addResult]. }
    destruct (IH counts.1 counts.2 p2 w1) as (Hev & Hsnap & Hpage & Hlog & Hworld & Hdone).
    replace (counts.1, counts.2) with counts in * by by destruct counts.
    destruct (call_each bookmarks_remove items.*2 w1) as [os w2].
    cbn [fst snd] in *.
    unfold after. cbn [timeline page world completion].
    split; [|split; [|split; [|split; [|split]]]].
    + by rewrite fmap_app, Hev.
    + rewrite fmap_app. apply Forall_app. split.
      { simpl. repeat (apply Forall_cons_2; [exact Hp1|]). apply Forall_nil_2. }
      eapply Forall_impl; [exact Hsnap|]. intros q. by apply same_controls_trans.
    + by eapply same_controls_trans.
    + rewrite Hlog. unfold p2. rewrite resultsDiv_children_addResult.
      unfold p1. rewrite resultsDiv_children_progress.
      rewrite <- (assoc_L (++)). simpl. by destruct (item_line id o).
    + done.
    + rewrite Hdone. unfold counts, count_fulfilled, count_rejected.
      destruct o; simpl; do 2 f_equal; lia.
Qed.


Lemma snd_zip_seq {X} (l : list X) : (zip (seq 0 (length l)) l).*2 = l.
Proof. apply snd_zip. by rewrite length_seq. Qed.

Lemma run_deleteBtn_click_confirmed (p : Page) (w w1 : W) :
  getIds p ≠ [] →
  window_confirm (confirm_text (length (getIds p))) w = (true, w1) →
  let r := run deleteBtn_click p w in
  let ids := getIds p in
  let os := (call_each bookmarks_remove ids w1).1 in
  (timeline r).*2
    = ConfirmShown (confirm_text (length ids)) true
      :: mjoin (zip_with remove_events ids os)
  ∧ (∃ tl, timeline r = (p, ConfirmShown (confirm_text (length ids)) true) :: tl
           ∧ Forall (same_controls (run_started p)) tl.*1)
  ∧ world r = (call_each bookmarks_remove ids w1).2
  ∧ loadFileBtn_disabled (page r) = false
  ∧ pasteBtn_disabled (page r) = false
  ∧ clearBtn_disabled (page r) = false
  ∧ bookmarkIdsInput_disabled (page r) = false
  ∧ deleteBtn_disabled (page r) = (count_rejected os =? 0)%nat
  ∧ bookmarkIdsInput_value (page r)
    = (if (count_rejected os =? 0)%nat then "" else bookmarkIdsInput_value p)
  ∧ resultsDiv_children (page r)
    = zip_with item_line ids os ++ summary_lines (count_fulfilled os).
Proof.
  intros Hne Hconf. unfold deleteBtn_click. cbn [run].
  destruct (length (getIds p) =? 0)%nat eqn:Hlen.
  { apply Nat.eqb_eq in Hlen. by destruct (getIds p). }
  unfold confirm, modify. proc_simpl. cbn [run]. rewrite Hconf. cbn [negb run].
  fold (run_started p).
  rewrite run_bind.
  destruct (run_deleteBtn_loop (length (getIds p))
              (zip (seq 0 (length (getIds p))) (getIds p)) 0 0 (run_started p) w1)
    as (Hev & Hsnap & Hpage & Hlog & Hworld & Hdone).
  rewrite snd_zip_seq in *.
  destruct (run (for_of _ _ _) (run_started p) w1) as [tl pg wd done_].
  cbn [timeline page world completion] in *. subst done_. cbn zeta.
  set (os := (call_each bookmarks_remove (getIds p) w1).1) in *.
  rewrite !Nat.add_0_l. cbn [run].
  unfold summary_lines.
  destruct (0 <? count_fulfilled os)%nat; cbn [bind run];
    destruct (count_rejected os =? 0)%nat; cbn [run];
    unfold after; cbn [timeline page world completion];
    rewrite !(right_id_L [] (++));
    (split; [by rewrite fmap_app, Hev|]);
    (split; [by eexists|]);
    (split; [done|]);
    destruct Hpage as (_ & _ & _ & _ & _ & Hvalue);
    destruct pg; destruct p; cbn in *; subst;
    repeat split; try done; by rewrite ?(right_id_L [] (++)).
Qed.
End PageLemmas.

Section PageTimelineLemmas.
Context `{Engine} {W : Type} `{!Browser W}.

Lemma removes_settled_events {St} (tl : list (St * event)) :
  removes_settled tl = removes_settled (((),.) <$> tl.*2).
Proof.
  unfold removes_settled. induction tl as [|[q e] tl IH]; [done|].
  csimpl. rewrite IH. by destruct e.
Qed.

Lemma failures_batch {St} (tl : list (St * event)) text answer ids os :
  length os = length ids →
  tl.*2 = ConfirmShown text answer :: mjoin (zip_with remove_events ids os) →
  failures tl = count_rejected os.
Proof.
  intros Hlen Hev. unfold failures, count_rejected.
  rewrite removes_settled_events, Hev. rewrite fmap_cons.
  change (removes_settled (((), ConfirmShown text answer) :: ?l))
    with (removes_settled l).
  rewrite removes_settled_batch.
  clear Hev. revert os Hlen. induction ids as [|id ids IH]; intros [|o os] Hlen;
    simpl in *; try done.
  destruct (is_rejected o); simpl; rewrite IH; auto with lia.
Qed.

Lemma controls_disabled_same p q :
  controls_disabled p = true → same_controls p q → controls_disabled q = true.
Proof.
  unfold controls_disabled. intros Hp (-> & -> & -> & -> & -> & _). done.
Qed.

Lemma controls_disabled_run_started p : controls_disabled (run_started p) = true.
Proof. by destruct p. Qed.

Lemma store_snapshots_disabled p (tl : list (Page * event)) :
  Forall (same_controls (run_started p)) tl.*1 →
  Forall (λ q, controls_disabled q = true) (store_snapshots tl).
Proof.
  unfold store_snapshots. induction tl as [|[q e] tl IH]; simpl; [done|].
  intros [Hq Htl]%Forall_cons. destruct (is_store_event e); simpl; [|by apply IH].
  apply Forall_cons_2; [|by apply IH].
  eapply controls_disabled_same; [apply controls_disabled_run_started|done].
Qed.

Lemma store_snapshots_nonempty (tl : list (Page * event)) text answer ids os :
  ids ≠ [] → length os = length ids →
  tl.*2 = ConfirmShown text answer :: mjoin (zip_with remove_events ids os) →
  store_snapshots tl ≠ [].
Proof.
  intros Hne Hlen Hev.
  destruct ids as [|id ids]; [done|]. destruct os as [|o os]; [done|].
  destruct tl as [|[q0 e0] [|[q1 e1] tl]]; simpl in Hev; try done.
  simplify_eq. unfold store_snapshots. simpl. done.
Qed.
End PageTimelineLemmas.

Section PageProperties.
Context `{Engine} {St W : Type} `{!Browser W}.


(** C7, as the code has it. Immediately after a delete run starts (at
    least one id, confirmation accepted) all five controls report
    disabled: they do when the first remove call is issued, which is the
    first moment the handler lets go of the page. Immediately after the
    run ends, load, paste, clear and the text input report enabled,
    whatever the outcome; the delete button reports enabled exactly when
    at least one item failed. After a run without failure the input has
    been cleared and the delete button reports disabled, as [updateCount]
    sets it for every empty list. *)
Theorem controls_during_and_after_run (p : Page) (w w1 : W) :
  getIds p ≠ [] →
  window_confirm (confirm_text (length (getIds p))) w = (true, w1) →
  (∃ q, head (store_snapshots (timeline (run deleteBtn_click p w))) = Some q
        ∧ loadFileBtn_disabled q = true
        ∧ pasteBtn_disabled q = true
        ∧ clearBtn_disabled q = true
        ∧ deleteBtn_disabled q = true
        ∧ bookmarkIdsInput_disabled q = true)
  ∧ loadFileBtn_disabled (page (run deleteBtn_click p w)) = false
  ∧ pasteBtn_disabled (page (run deleteBtn_click p w)) = false
  ∧ clearBtn_disabled (page (run deleteBtn_click p w)) = false
  ∧ bookmarkIdsInput_disabled (page (run deleteBtn_click p w)) = false
  ∧ deleteBtn_disabled (page (run deleteBtn_click p w))
    = bool_decide (failures (timeline (run deleteBtn_click p w)) = 0%nat)
  ∧ (failures (timeline (run deleteBtn_click p w)) = 0%nat →
     bookmarkIdsInput_value (page (run deleteBtn_click p w)) = ""
     ∧ getIds (page (run deleteBtn_click p w)) = []).
Proof.
  intros Hne Hconf.
  destruct (run_deleteBtn_click_confirmed p w w1 Hne Hconf)
    as (Hev & (tl & Htl & Hsnap) & _ & Hload & Hpaste & Hclear & Hinput
        & Hdelete & Hvalue & _).
  pose proof (call_each_length bookmarks_remove (getIds p) w1) as Hlen.
  split.
  { pose proof (store_snapshots_nonempty _ _ _ _ _ Hne Hlen Hev) as Hsome.
    assert (Forall (λ q, controls_disabled q = true)
              (store_snapshots (timeline (run deleteBtn_click p w)))) as Hall.
    { rewrite Htl. unfold store_snapshots. simpl.
      by apply (store_snapshots_disabled p). }
    destruct (store_snapshots (timeline (run deleteBtn_click p w))) as [|q qs];
      [done|].
    apply Forall_cons in Hall as [Hq _]. exists q. split; [done|].
    unfold controls_disabled in Hq.
    by destruct (loadFileBtn_disabled q), (pasteBtn_disabled q),
      (clearBtn_disabled q), (deleteBtn_disabled q), (bookmarkIdsInput_disabled q). }
  repeat (split; [done|]).
  rewrite (failures_batch _ _ _ _ _ Hlen Hev).
  split.
  - rewrite Hdelete. by destruct (count_rejected _).
  - intros Hnone. unfold getIds. rewrite Hvalue, Hnone. done.
Qed.

(** C8. After a delete run of the page: when no item failed the input
    field is empty, and when at least one item failed the input field
    holds exactly the text it held when the run started. *)
Theorem input_after_run (p : Page) (w w1 : W) :
  getIds p ≠ [] →
  window_confirm (confirm_text (length (getIds p))) w = (true, w1) →
  (failures (timeline (run deleteBtn_click p w)) = 0%nat →
     bookmarkIdsInput_value (page (run deleteBtn_click p w)) = "")
  ∧ (failures (timeline (run deleteBtn_click p w)) ≠ 0%nat →
     bookmarkIdsInput_value (page (run deleteBtn_click p w))
     = bookmarkIdsInput_value p).
Proof.
  intros Hne Hconf.
  destruct (run_deleteBtn_click_confirmed p w w1 Hne Hconf)
    as (Hev & _ & _ & _ & _ & _ & _ & _ & Hvalue & _).
  pose proof (call_each_length bookmarks_remove (getIds p) w1) as Hlen.
  rewrite Hvalue, (failures_batch _ _ _ _ _ Hlen Hev).
  by destruct (count_rejected _).
Qed.
End PageProperties.

(** ** File import *)

Section ImportLemmas.
Context `{Engine} {W : Type} `{!Browser W}.

Lemma imported_ids_content text (p : Page) (w : W) :
  imported_ids text p w = ids_of_text (import_content text).
Proof. unfold imported_ids, reader_onload, modify. proc_simpl. by destruct p. Qed.

Lemma import_item_element_id item :
  item ≠ VNull → import_item item = Some (element_id item).
Proof. by destruct item. Qed.

Lemma mapM_import_item items :
  VNull ∉ items → mapM import_item items = Some (element_id <$> items).
Proof.
  induction items as [|item items IH]; [done|].
  intros [Hitem Hitems]%not_elem_of_cons.
  specialize (IH Hitems). cbn in *.
  rewrite import_item_element_id by done. cbn. by rewrite IH.
Qed.

(** Import does what the specification says on every file but those that
    parse as an array with a [null] element. *)
Lemma import_refines_spec text (p : Page) (w : W) :
  (∀ items, JSON_parse text = Some (VArr items) → VNull ∉ items) →
  imported_ids text p w = imported_ids_spec text.
Proof.
  intros Hnull. rewrite imported_ids_content.
  unfold import_content, imported_ids_spec.
  destruct (JSON_parse text) as [[]|]; try done.
  by rewrite mapM_import_item by by apply Hnull.
Qed.

Lemma mapM_import_item_null items :
  VNull ∈ items → mapM import_item items = None.
Proof.
  induction items as [|item items IH]; [by intros ?%elem_of_nil|].
  intros [<-|Hin]%elem_of_cons; [done|].
  specialize (IH Hin). cbn in *. rewrite IH. by destruct (import_item item).
Qed.

(** On a file that parses as an array with a [null] element the raw text
    is kept, as if the file had not parsed. *)
Lemma import_keeps_raw_text text items (p : Page) (w : W) :
  JSON_parse text = Some (VArr items) → VNull ∈ items →
  imported_ids text p w = ids_of_text text.
Proof.
  intros Hparse Hnull. rewrite imported_ids_content. unfold import_content.
  by rewrite Hparse, mapM_import_item_null.
Qed.

(** Free text, which does not parse, is normalised as it is. *)
Lemma import_free_text text (p : Page) (w : W) :
  JSON_parse text = None → imported_ids text p w = ids_of_text text.
Proof.
  intros Hparse. rewrite imported_ids_content. unfold import_content.
  by rewrite Hparse.
Qed.
End ImportLemmas.

(** ** The normalisation of the input *)

Lemma split_nonempty sep s : split sep s ≠ [].
Proof.
  destruct s as [|c s]; simpl; [done|].
  case_bool_decide; [done|]. by destruct (split sep s).
Qed.

(** Splitting distributes over a separator between two texts. *)
Lemma split_app sep a b :
  split sep (a +:+ String sep b) = split sep a ++ split sep b.
Proof.
  induction a as [|c a IH]; simpl.
  - by rewrite bool_decide_eq_true_2.
  - rewrite IH. case_bool_decide; [done|].
    pose proof (split_nonempty sep a). by destruct (split sep a).
Qed.

Lemma split_no_sep sep s : Forall (λ l, sep ∉ code_units l) (split sep s).
Proof.
  induction s as [|c s IH]; simpl.
  - apply Forall_cons_2; [apply not_elem_of_nil|apply Forall_nil_2].
  - case_bool_decide as Hc.
    + apply Forall_cons_2; [apply not_elem_of_nil|done].
    + destruct (split sep s) as [|l ls].
      * apply Forall_cons_2; [|apply Forall_nil_2]. simpl.
        intros [->|[]%elem_of_nil]%elem_of_cons. done.
      * apply Forall_cons in IH as [Hl Hls]. apply Forall_cons_2; [|done].
        simpl. intros [->|?]%elem_of_cons; done.
Qed.

Lemma split_without_sep sep s : sep ∉ code_units s → split sep s = [s].
Proof.
  induction s as [|c s IH]; simpl; [done|].
  intros [Hc Hs]%not_elem_of_cons. rewrite bool_decide_eq_false_2 by done.
  by rewrite IH.
Qed.

Lemma trimStart_units s c : c ∈ code_units (trimStart s) → c ∈ code_units s.
Proof.
  induction s as [|c' s IH]; simpl; [done|].
  destruct (is_white_space c'); [|done]. intros ?%IH. by apply elem_of_cons; right.
Qed.

Lemma trimEnd_units s c : c ∈ code_units (trimEnd s) → c ∈ code_units s.
Proof.
  induction s as [|c' s IH]; simpl; [done|].
  destruct (trimEnd s) as [|c'' kept] eqn:Hkept.
  - destruct (is_white_space c'); simpl; [by intros ?%elem_of_nil|].
    intros [->|[]%elem_of_nil]%elem_of_cons. apply elem_of_cons; by left.
  - simpl. intros [->|Hin]%elem_of_cons; apply elem_of_cons; [by left|right].
    by apply IH.
Qed.

Lemma trim_units s c : c ∈ code_units (trim s) → c ∈ code_units s.
Proof. unfold trim. intros ?%trimEnd_units. by apply trimStart_units. Qed.

Lemma trimEnd_idemp s : trimEnd (trimEnd s) = trimEnd s.
Proof.
  induction s as [|c s IH]; simpl; [done|].
  destruct (trimEnd s) as [|c' kept] eqn:Hkept.
  - destruct (is_white_space c) eqn:Hc; simpl; [done|]. by rewrite Hc.
  - simpl in *. by rewrite IH.
Qed.

(** A text with a first character that is no white space keeps it when
    trimmed at the end. *)
Lemma trimStart_trimEnd s :
  trimStart s = s → trimStart (trimEnd s) = trimEnd s.
Proof.
  destruct s as [|c s]; simpl; [done|].
  destruct (is_white_space c) eqn:Hc.
  - intros Hs. exfalso.
    assert (String.length (trimStart s) ≤ String.length s)%nat as Hle.
    { clear. induction s as [|c s IH]; simpl; [done|].
      destruct (is_white_space c); simpl; lia. }
    rewrite Hs in Hle. simpl in Hle. lia.
  - intros _. destruct (trimEnd s); simpl; by rewrite Hc.
Qed.

Lemma trimStart_idemp s : trimStart (trimStart s) = trimStart s.
Proof.
  induction s as [|c s IH]; simpl; [done|].
  destruct (is_white_space c) eqn:Hc; [done|]. simpl. by rewrite Hc.
Qed.

Lemma trim_idemp s : trim (trim s) = trim s.
Proof.
  unfold trim. rewrite (trimStart_trimEnd (trimStart s)) by apply trimStart_idemp.
  apply trimEnd_idemp.
Qed.

Lemma ids_of_text_app a b :
  ids_of_text (a +:+ newline +:+ b) = ids_of_text a ++ ids_of_text b.
Proof.
  unfold ids_of_text. change (newline +:+ b) with (String LF b).
  by rewrite split_app, fmap_app, List.filter_app.
Qed.

Lemma ids_of_text_is_id id : is_id id → ids_of_text id = [id].
Proof.
  intros (Hne & Htrim & Hmark & Hlf). unfold ids_of_text.
  rewrite split_without_sep by done. simpl. rewrite Htrim.
  unfold is_id_line. rewrite Hmark. by destruct id.
Qed.

Lemma lines_text_cons id ids :
  ids ≠ [] → lines_text (id :: ids) = id +:+ newline +:+ lines_text ids.
Proof. by destruct ids. Qed.

Lemma ids_of_text_valid (text id : string) :
  id ∈ ids_of_text text → is_id id.
Proof.
  unfold ids_of_text. intros Hin.
  apply list_elem_of_In, filter_In in Hin as [Hin Hline].
  apply list_elem_of_In, list_elem_of_fmap in Hin as (line & -> & Hin).
  unfold is_id_line in Hline. apply andb_prop in Hline as [Hlen Hmark].
  split; [|split; [|split]].
  - intros Hempty. by rewrite Hempty in Hlen.
  - apply trim_idemp.
  - by destruct (startsWith "#" (trim line)).
  - intros Hlf%trim_units.
    pose proof (split_no_sep LF text) as Hsplit.
    rewrite Forall_forall in Hsplit. by apply (Hsplit line).
Qed.

Lemma ids_of_text_lines (ids : list string) :
  Forall is_id ids → ids_of_text (lines_text ids) = ids.
Proof.
  induction ids as [|id ids IH]; [done|].
  intros [Hid Hids]%Forall_cons.
  destruct ids as [|id' ids]; [by apply ids_of_text_is_id|].
  rewrite lines_text_cons by done.
  rewrite ids_of_text_app, (ids_of_text_is_id id) by done.
  by rewrite IH.
Qed.

Section Normalisation.

(** X1. Every identifier [getIds] returns is a usable line: it is not
    empty, carries no white space at either end, does not start with the
    comment mark and holds no line feed. *)
Theorem getIds_gives_ids (text id : string) :
  id ∈ ids_of_text text → is_id id.
Proof. apply ids_of_text_valid. Qed.

(** X2. The identifiers of two texts put one after the other, a line feed
    between them, are those of the first followed by those of the second:
    lines are normalised one by one. *)
Theorem getIds_of_joined_texts (a b : string) :
  ids_of_text (a +:+ newline +:+ b) = ids_of_text a ++ ids_of_text b.
Proof. apply ids_of_text_app. Qed.

(** X3. A list of identifiers written one per line reads back as itself. *)
Theorem getIds_of_lines (ids : list string) :
  Forall is_id ids → ids_of_text (lines_text ids) = ids.
Proof. apply ids_of_text_lines. Qed.

(** X4. Normalising is idempotent: the identifiers read from a text,
    written back one per line, read as the same identifiers. *)
Theorem getIds_round_trip (text : string) :
  ids_of_text (lines_text (ids_of_text text)) = ids_of_text text.
Proof.
  apply ids_of_text_lines. apply Forall_forall. intros id. apply ids_of_text_valid.
Qed.
End Normalisation.

(** ** File import, element by element *)

Section ImportProperties.
Context `{Engine} {W : Type} `{!Browser W}.

Lemma join_singleton sep (x : val) : join sep [x] = element_text x.
Proof. by destruct x. Qed.

Lemma join_cons sep (x y : val) rest :
  join sep (x :: y :: rest) = element_text x +:+ sep +:+ join sep (y :: rest).
Proof. by destruct x. Qed.

Lemma ids_of_joined_elements (l : list val) :
  ids_of_text (join newline l) = mjoin ((λ v, ids_of_text (element_text v)) <$> l).
Proof.
  induction l as [|x [|y rest] IH]; [done| |].
  - rewrite join_singleton. simpl. by rewrite (right_id_L [] (++)).
  - rewrite join_cons, ids_of_text_app, IH. done.
Qed.

Lemma imported_ids_elements (text : string) (items : list val)
    (p : Page) (w : W) :
  JSON_parse text = Some (VArr items) →
  VNull ∉ items →
  imported_ids text p w
  = mjoin ((λ item, ids_of_text (element_text (element_id item))) <$> items).
Proof.
  intros Hparse Hnull. rewrite imported_ids_content. unfold import_content.
  rewrite Hparse, mapM_import_item by done.
  rewrite ids_of_joined_elements, <- list_fmap_compose. done.
Qed.


(** X6. Import reads back a list of identifiers: when the file parses as
    an array whose elements are the identifiers themselves, or records
    holding them under [id], and each identifier is a usable line, the
    identifier list is exactly that list, in order. *)
Theorem import_reads_back_ids (text : string) (items : list val)
    (ids : list string) (p : Page) (w : W) :
  JSON_parse text = Some (VArr items) →
  Forall2 (λ item id, item ≠ VNull ∧ element_id item = VStr id) items ids →
  Forall is_id ids →
  imported_ids text p w = ids.
Proof.
  intros Hparse Hitems Hids.
  assert (VNull ∉ items) as Hnull.
  { clear Hparse Hids. induction Hitems as [|item id items ids [Hitem _] _ IH].
    - apply not_elem_of_nil.
    - apply not_elem_of_cons. split; [done|exact IH]. }
  rewrite (imported_ids_elements text items p w Hparse Hnull).
  clear Hparse Hnull. induction Hitems as [|item id items ids [_ Hitem] _ IH]; [done|].
  apply Forall_cons in Hids as [Hid Hids].
  csimpl. rewrite Hitem, IH by done. cbn [element_text ToString].
  by rewrite (ids_of_text_is_id id).
Qed.

(** X7. Import falls back to the raw text of the file whenever the text
    does not parse as an array, be it no JSON at all or JSON of another
    shape (a number, a string, an object), and also when it parses as an
    array with a [null] element. *)
Theorem import_falls_back_to_text (text : string) (p : Page) (w : W) :
  (∀ items, JSON_parse text = Some (VArr items) → VNull ∈ items) →
  imported_ids text p w = ids_of_text text.
Proof.
  intros Hshape. rewrite imported_ids_content. unfold import_content.
  destruct (JSON_parse text) as [[]|]; try done.
  by rewrite mapM_import_item_null by by apply Hshape.
Qed.
End ImportProperties.

(** ** More on the router *)

Section RouterMoreLemmas.
Context `{Engine} {St W : Type} `{!Browser W}.


Lemma run_deleteBookmarks_items payload ids (s : St) (w : W) :
  iterate payload = Some ids →
  run (deleteBookmarks payload) s w =
  let '(os, w') := call_each bookmarks_remove (ToString <$> ids) w in
  {| timeline := (s,.) <$> mjoin (zip_with remove_events (ToString <$> ids) os);
     page := s; world := w';
     completion := Fulfilled (zip_with delete_entry (ToString <$> ids) os) |}.
Proof.
  intros Hit. unfold deleteBookmarks. rewrite Hit.
  apply (run_deleteBookmarks_loop ids []).
Qed.

Lemma run_findBookmarksByUrl_items payload urls (s : St) (w : W) :
  iterate payload = Some urls →
  run (findBookmarksByUrl payload) s w =
  let '(os, w') := call_each bookmarks_search urls w in
  {| timeline := (s,.) <$> mjoin (zip_with search_events urls os);
     page := s; world := w';
     completion := Fulfilled (zip_with lookup_entry urls os) |}.
Proof.
  intros Hit. unfold findBookmarksByUrl. rewrite Hit.
  apply (run_findBookmarksByUrl_loop urls []).
Qed.

Lemma run_findBookmarksByUrl_not_iterable payload (s : St) (w : W) :
  iterate payload = None →
  run (findBookmarksByUrl payload) s w =
  {| timeline := []; page := s; world := w;
     completion := Rejected (not_iterable_message "urls" payload) |}.
Proof. intros Hit. unfold findBookmarksByUrl. by rewrite Hit. Qed.

Lemma responses_sent_searches (s : St) urls os :
  responses_sent ((s,.) <$> mjoin (zip_with search_events urls os)) = [].
Proof.
  revert os. induction urls as [|url urls IH]; intros [|o os]; try done.
  unfold responses_sent in *. simpl. apply IH.
Qed.

(** The one-shot listener on a [findBookmarksByUrl] request. *)
Lemma run_onMessageExternal_lookup request payload (s : St) (w : W) :
  action_tag request = Some "findBookmarksByUrl" →
  get request "urls" = Some payload →
  run (onMessageExternal request) s w =
  let r := run (findBookmarksByUrl payload) s w in
  {| timeline :=
       timeline r ++
       [(page r, ResponseSent
                   match completion r with
                   | Fulfilled results => success_envelope (LookupResults results)
                   | Rejected m => failure_envelope m
                   end)];
     page := page r; world := world r; completion := Fulfilled (Some true) |}.
Proof.
  intros (action & Hact & Htag)%action_tag_is_string Hpayload.
  unfold onMessageExternal, property. rewrite Hact. proc_simpl.
  rewrite !Htag. rewrite !bool_decide_eq_false_2 by done.
  rewrite bool_decide_eq_true_2 by done.
  rewrite Hpayload. proc_simpl.
  rewrite run_bind. unfold then_catch. rewrite run_try_catch, run_bind.
  destruct (run (findBookmarksByUrl payload) s w) as [tl pg wd [results|m]]; simpl;
    unfold after; simpl; by rewrite ?(right_id_L [] (++)).
Qed.

Lemma run_onMessageExternal_ping request (s : St) (w : W) :
  action_tag request = Some "ping" →
  run (onMessageExternal request) s w =
  {| timeline := [(s, ResponseSent ping_envelope)]; page := s; world := w;
     completion := Fulfilled (Some true) |}.
Proof.
  intros (action & Hact & Htag)%action_tag_is_string.
  unfold onMessageExternal, property. rewrite Hact. proc_simpl.
  rewrite !Htag. rewrite bool_decide_eq_false_2 by done.
  by rewrite bool_decide_eq_true_2.
Qed.


Lemma searches_settled_outcomes (s : St) urls os :
  length os = length urls →
  (searches_settled ((s,.) <$> mjoin (zip_with search_events urls os))).*2 = os.
Proof.
  intros Hlen. rewrite searches_settled_batch. by apply snd_zip; rewrite Hlen.
Qed.

Lemma fmap_zip_with_snd {X O R T} (f : X → O → R) (g : R → T) (h : O → T) xs os :
  (∀ x o, g (f x o) = h o) → length os = length xs →
  g <$> zip_with f xs os = h <$> os.
Proof.
  intros Hg. revert os. induction xs as [|x xs IH]; intros [|o os] Hlen;
    simpl in *; try done.
  rewrite Hg, IH; [done|lia].
Qed.
End RouterMoreLemmas.

Section RouterMore.
Context `{Engine} {St W : Type} `{!Browser W}.

(** X8. A [ping] on the one-shot channel is acknowledged at once, whatever
    else the request carries: the acknowledgement is the only event, the
    store is not called, and the listener returns [true]. *)
Theorem ping_acknowledged (request : val) (s : St) (w : W) :
  action_tag request = Some "ping" →
  run (onMessageExternal request) s w =
  {| timeline :=
       [(s, ResponseSent {| success := true; results := None; error := None;
                            message := Some "Extension is active" |})];
     page := s; world := w;
     completion := Fulfilled (Some true) |}.
Proof. apply run_onMessageExternal_ping. Qed.

(** X9. A [findBookmarksByUrl] request on the one-shot channel gets
    exactly one envelope: [{success: true, results}] with one entry per
    url when [urls] is a list, and [{success: false, error}] exactly when
    [urls] cannot be iterated, in which case the store is not called. *)
Theorem lookup_envelope (request payload : val) (s : St) (w : W) :
  action_tag request = Some "findBookmarksByUrl" →
  get request "urls" = Some payload →
  ∃ envelope,
    responses_sent (timeline (run (onMessageExternal request) s w)) = [envelope]
    ∧ (∀ urls, payload = VArr urls →
         ∃ results,
           completion (run (findBookmarksByUrl payload) s w) = Fulfilled results
           ∧ length results = length urls
           ∧ envelope = {| success := true; results := Some (LookupResults results);
                           error := None; message := None |})
    ∧ (success envelope = false ↔ iterate payload = None)
    ∧ (iterate payload = None →
         (timeline (run (onMessageExternal request) s w)).*2
           = [ResponseSent
                {| success := false; results := None;
                   error := Some (not_iterable_message "urls" payload);
                   message := None |}]
         ∧ world (run (onMessageExternal request) s w) = w).
Proof.
  intros Htag Hpayload.
  rewrite (run_onMessageExternal_lookup request payload s w Htag Hpayload).
  destruct (iterate payload) as [urls|] eqn:Hit.
  - rewrite (run_findBookmarksByUrl_items payload urls s w Hit).
    pose proof (call_each_length bookmarks_search urls w) as Hlen.
    destruct (call_each bookmarks_search urls w) as [os w']. simpl in Hlen.
    cbn [timeline page world completion].
    unfold responses_sent at 1. rewrite omap_app.
    fold (responses_sent ((s,.) <$> mjoin (zip_with search_events urls os))).
    rewrite responses_sent_searches. simpl.
    eexists. split; [done|]. split; [|done].
    intros urls' ->. simplify_eq/=. eexists. split; [done|]. split; [|done].
    by rewrite length_zip_with_l_eq.
  - rewrite run_findBookmarksByUrl_not_iterable by done. simpl.
    eexists. split; [done|]. split; [|done].
    by intros urls ->.
Qed.

(** X10. A request that is [null] or [undefined] makes either listener
    throw when it reads [action]: nothing is sent or posted and the store
    is not called. *)
Theorem null_request_throws (request : val) (s : St) (w : W) :
  request = VNull ∨ request = VUndefined →
  run (onMessageExternal request) s w =
    {| timeline := []; page := s; world := w;
       completion := Rejected (cannot_read_message request "action") |}
  ∧ run (port_onMessage request) s w =
    {| timeline := []; page := s; world := w;
       completion := Rejected (cannot_read_message request "action") |}.
Proof. by intros [-> | ->]. Qed.

(** X11. For a request that is not [null] or [undefined] the one-shot
    listener never throws, and it returns [true], which keeps the reply
    channel open, exactly when the action tag is one of the three it
    serves; otherwise it returns [undefined]. *)
Theorem listener_keeps_channel_open (request : val) (s : St) (w : W) :
  is_Some (get request "action") →
  completion (run (onMessageExternal request) s w)
  = Fulfilled (if recognised request then Some true else None).
Proof.
  intros [action Hact]. unfold recognised.
  destruct (decide (action_tag request = Some "deleteBookmarks")) as [Htag|Hd].
  { destruct (action_tag_get request _ "bookmarkIds" Htag) as [payload Hp].
    rewrite (run_onMessageExternal_delete request payload s w Htag Hp), Htag.
    by rewrite bool_decide_eq_true_2 by (rewrite !elem_of_cons; auto). }
  destruct (decide (action_tag request = Some "ping")) as [Htag|Hp].
  { rewrite (run_onMessageExternal_ping request s w Htag), Htag.
    by rewrite bool_decide_eq_true_2 by (rewrite !elem_of_cons; auto). }
  destruct (decide (action_tag request = Some "findBookmarksByUrl")) as [Htag|Hf].
  { destruct (action_tag_get request _ "urls" Htag) as [payload Hu].
    rewrite (run_onMessageExternal_lookup request payload s w Htag Hu), Htag.
    by rewrite bool_decide_eq_true_2 by (rewrite !elem_of_cons; auto). }
  rewrite bool_decide_eq_false_2
    by (rewrite !elem_of_cons, elem_of_nil; intros [?|[?|[?|[]]]]; done).
  unfold onMessageExternal, property. rewrite Hact. proc_simpl.
  by rewrite !(action_tag_other request action Hact).
Qed.

(** X12. A [bookmarkIds] payload that is a string is not refused: it is
    iterated character by character, and the store is asked to remove the
    bookmark named by each single character, one entry each. *)
Theorem string_payload_iterated (text : string) (s : St) (w : W) :
  removes_issued (timeline (run (deleteBookmarks (VStr text)) s w))
    = (λ c, String c "") <$> code_units text
  ∧ ∃ results,
      completion (run (deleteBookmarks (VStr text)) s w) = Fulfilled results
      ∧ dr_id <$> results = (λ c, String c "") <$> code_units text.
Proof.
  rewrite (run_deleteBookmarks_items (VStr text) _ s w eq_refl).
  rewrite <- list_fmap_compose.
  change (ToString ∘ _) with (λ c : ascii, String c "").
  pose proof (call_each_length bookmarks_remove
                ((λ c, String c "") <$> code_units text) w) as Hlen.
  destruct (call_each bookmarks_remove _ w) as [os w']. simpl in Hlen.
  cbn [timeline completion]. split; [by apply removes_issued_batch|].
  eexists. split; [done|].
  apply fmap_zip_with_fst; [apply dr_id_delete_entry|done].
Qed.


(** X14. The entries of a lookup batch mirror the outcomes of the searches
    one for one: an entry carries an error exactly when its search was
    rejected, and otherwise its matches are the bookmarks the store
    returned, in the same order, each cut down to id, title, url and
    parent id; a search without result gives an entry with no match and
    no error. *)
Theorem lookup_entries_reflect_outcomes (urls : list val) (s : St) (w : W) :
  ∃ results,
    completion (run (findBookmarksByUrl (VArr urls)) s w) = Fulfilled results
    ∧ lr_error <$> results
      = error_of
        <$> (searches_settled (timeline (run (findBookmarksByUrl (VArr urls)) s w))).*2
    ∧ lr_bookmarks <$> results
      = matches_of
        <$> (searches_settled (timeline (run (findBookmarksByUrl (VArr urls)) s w))).*2.
Proof.
  rewrite run_findBookmarksByUrl_array.
  pose proof (call_each_length bookmarks_search urls w) as Hlen.
  destruct (call_each bookmarks_search urls w) as [os w'].
  simpl in Hlen. cbn [timeline completion].
  rewrite searches_settled_outcomes by done.
  eexists. split; [done|]. split.
  - apply fmap_zip_with_snd; [by intros ? []|done].
  - apply fmap_zip_with_snd; [by intros ? []|done].
Qed.


(** X16. An empty list of ids is a batch like any other: on either
    transport the only event is the one envelope
    [{success: true, results: []}], and the store is not called. *)
Theorem empty_batch_succeeds (request : val) (s : St) (w : W) :
  action_tag request = Some "deleteBookmarks" →
  get request "bookmarkIds" = Some (VArr []) →
  ((timeline (run (onMessageExternal request) s w)).*2
     = [ResponseSent {| success := true; results := Some (DeleteResults []);
                        error := None; message := None |}]
   ∧ world (run (onMessageExternal request) s w) = w)
  ∧ ((timeline (run (port_onMessage request) s w)).*2
       = [MessagePosted {| success := true; results := Some (DeleteResults []);
                           error := None; message := None |}]
     ∧ world (run (port_onMessage request) s w) = w).
Proof.
  intros Htag Hpayload.
  rewrite (run_onMessageExternal_delete request _ s w Htag Hpayload).
  by rewrite (run_port_onMessage_delete request _ s w Htag Hpayload).
Qed.

End RouterMore.

(** ** More on the delete run of the page *)

Section PageMoreLemmas.
Context `{Engine} {W : Type} `{!Browser W}.

Lemma same_outside_progress_trans p q r :
  same_outside_progress p q → same_outside_progress q r → same_outside_progress p r.
Proof.
  intros (Hc & ? & ? & ?) (Hc' & ? & ? & ?).
  split; [by eapply same_controls_trans|]. repeat split; congruence.
Qed.

Lemma same_outside_progress_item v v' b m p :
  same_outside_progress p
    (addResult b m (set_progressText_content v (set_progressFill_width v' p))).
Proof. by destruct p. Qed.

Lemma same_outside_progress_bar v v' p :
  same_outside_progress p (set_progressText_content v (set_progressFill_width v' p)).
Proof. by destruct p. Qed.

Lemma count_rejected_fulfilled {A} (os : list (settled A)) :
  (count_fulfilled os + count_rejected os = length os)%nat.
Proof.
  unfold count_fulfilled, count_rejected.
  induction os as [|[] os IH]; simpl; lia.
Qed.

(** The pages the delete loop goes through. *)
Lemma run_deleteBtn_loop_pages total (items : list (nat * string)) sc ec
    (p : Page) (w : W) :
  let r := run (for_of items (deleteBtn_item total) (sc, ec)) p w in
  let os := (call_each bookmarks_remove items.*2 w).1 in
  Forall (same_outside_progress p) (timeline r).*1
  ∧ same_outside_progress p (page r)
  ∧ progressFill_width <$> issue_snapshots (timeline r)
    = (λ i, percent_toFixed0 (i + 1) total +:+ "%") <$> items.*1
  ∧ progressText_content <$> issue_snapshots (timeline r)
    = (λ i, deleting_text (i + 1) total) <$> items.*1
  ∧ resultsDiv_children <$> issue_snapshots (timeline r)
    = (λ k, resultsDiv_children p ++ take k (zip_with item_line items.*2 os))
      <$> seq 0 (length items).
Proof.
  revert sc ec p w. induction items as [|[i id] items IH]; intros sc ec p w.
  - simpl. by repeat split.
  - cbn [for_of]. rewrite run_bind, run_deleteBtn_item.
    rewrite !fmap_cons. cbn [fst snd call_each].
    destruct (bookmarks_remove id w) as [o w1]. cbn zeta.
    cbn [completion page world timeline].
    fold (deleting_text (i + 1) total).
    set (p1 := set_progressText_content _ _).
    set (p2 := addResult _ _ p1).
    set (counts := if is_rejected o then _ else _).
    assert (same_outside_progress p p1) as Hp1 by apply same_outside_progress_bar.
    assert (same_outside_progress p p2) as Hp2 by apply same_outside_progress_item.
    destruct (IH counts.1 counts.2 p2 w1) as (Hsnap & Hpage & Hfill & Htext & Hlog).
    replace (counts.1, counts.2) with counts in * by by destruct counts.
    destruct (call_each bookmarks_remove items.*2 w1) as [os w2].
    cbn [fst snd] in *.
    unfold after. cbn [timeline page world completion].
    split; [|split; [|split; [|split]]].
    + rewrite fmap_app. apply Forall_app. split.
      { simpl. repeat (apply Forall_cons_2; [exact Hp1|]). apply Forall_nil_2. }
      eapply Forall_impl; [exact Hsnap|]. intros q.
      by apply same_outside_progress_trans.
    + by eapply same_outside_progress_trans.
    + unfold issue_snapshots in *. rewrite omap_app, fmap_app. cbn [omap list_omap].
      simpl. rewrite Hfill. f_equal. unfold p1. by destruct p.
    + unfold issue_snapshots in *. rewrite omap_app, fmap_app.
      simpl. rewrite Htext. f_equal. unfold p1. by destruct p.
    + unfold issue_snapshots in *. rewrite omap_app, fmap_app.
      simpl. rewrite Hlog. f_equal.
      { unfold p1. destruct p; simpl. by rewrite (right_id_L [] (++)). }
      rewrite <- fmap_S_seq, <- list_fmap_compose. apply list_fmap_ext.
      intros _ k _. simpl. unfold p2. rewrite resultsDiv_children_addResult.
      unfold p1. rewrite resultsDiv_children_progress.
      rewrite <- (assoc_L (++)). simpl. by destruct (item_line id o).
Qed.
End PageMoreLemmas.

Section PageRunLemmas.
Context `{Engine} {W : Type} `{!Browser W}.

Lemma fst_zip_seq {X} (l : list X) : (zip (seq 0 (length l)) l).*1 = seq 0 (length l).
Proof. apply fst_zip. by rewrite length_seq. Qed.

Lemma run_deleteBtn_click_pages (p : Page) (w w1 : W) :
  getIds p ≠ [] →
  window_confirm (confirm_text (length (getIds p))) w = (true, w1) →
  let r := run deleteBtn_click p w in
  let ids := getIds p in
  let os := (call_each bookmarks_remove ids w1).1 in
  completion r = Fulfilled ()
  ∧ progressFill_width <$> issue_snapshots (timeline r)
    = (λ i, percent_toFixed0 (i + 1) (length ids) +:+ "%") <$> seq 0 (length ids)
  ∧ progressText_content <$> issue_snapshots (timeline r)
    = (λ i, deleting_text (i + 1) (length ids)) <$> seq 0 (length ids)
  ∧ resultsDiv_children <$> issue_snapshots (timeline r)
    = (λ k, take k (zip_with item_line ids os)) <$> seq 0 (length ids)
  ∧ progressFill_width (page r) = "100%"
  ∧ progressText_content (page r)
    = complete_text (count_fulfilled os) (count_rejected os)
  ∧ progressDiv_show (page r) = true
  ∧ resultsDiv_show (page r) = true
  ∧ countDisplay_textContent (page r)
    = (if (count_rejected os =? 0)%nat
       then pretty 0%nat +:+ " bookmark ID(s) loaded"
       else countDisplay_textContent p).
Proof.
  intros Hne Hconf. unfold deleteBtn_click. cbn [run].
  destruct (length (getIds p) =? 0)%nat eqn:Hlen.
  { apply Nat.eqb_eq in Hlen. by destruct (getIds p). }
  unfold confirm, modify. proc_simpl. cbn [run]. rewrite Hconf. cbn [negb run].
  fold (run_started p).
  rewrite run_bind.
  destruct (run_deleteBtn_loop (length (getIds p))
              (zip (seq 0 (length (getIds p))) (getIds p)) 0 0 (run_started p) w1)
    as (_ & _ & _ & _ & _ & Hdone).
  destruct (run_deleteBtn_loop_pages (length (getIds p))
              (zip (seq 0 (length (getIds p))) (getIds p)) 0 0 (run_started p) w1)
    as (_ & Hpage & Hfill & Htext & Hlog).
  rewrite snd_zip_seq, ?fst_zip_seq in *.
  rewrite length_zip_with_l_eq in Hlog by by rewrite length_seq.
  rewrite length_seq in Hlog.
  destruct (run (for_of _ _ _) (run_started p) w1) as [tl pg wd done_].
  cbn [timeline page world completion] in *. subst done_. cbn zeta.
  set (os := (call_each bookmarks_remove (getIds p) w1).1) in *.
  rewrite !Nat.add_0_l. cbn [run].
  fold (complete_text (count_fulfilled os) (count_rejected os)).
  assert (resultsDiv_children (run_started p) = []) as Hempty by by destruct p.
  rewrite Hempty in Hlog.
  destruct Hpage as ((_ & _ & _ & _ & _ & _) & Hcount & Hprogress & Hresults).
  assert (countDisplay_textContent (run_started p) = countDisplay_textContent p)
    as Hcount' by by destruct p.
  assert (progressDiv_show (run_started p) = true) as Hprogress' by by destruct p.
  assert (resultsDiv_show (run_started p) = true) as Hresults' by by destruct p.
  rewrite Hcount' in Hcount. rewrite Hprogress' in Hprogress.
  rewrite Hresults' in Hresults.
  destruct (0 <? count_fulfilled os)%nat; cbn [bind run];
    destruct (count_rejected os =? 0)%nat; cbn [run];
    unfold after; cbn [timeline page world completion];
    rewrite !(right_id_L [] (++));
    (split; [done|]);
    change (issue_snapshots ([?e] ++ tl)) with (issue_snapshots tl);
    (split; [exact Hfill|]); (split; [exact Htext|]); (split; [exact Hlog|]);
    destruct pg; cbn in *; subst; by repeat split.
Qed.

Lemma run_deleteBtn_click_declined (p : Page) (w w1 : W) :
  getIds p ≠ [] →
  window_confirm (confirm_text (length (getIds p))) w = (false, w1) →
  run deleteBtn_click p w =
  {| timeline := [(p, ConfirmShown (confirm_text (length (getIds p))) false)];
     page := p; world := w1; completion := Fulfilled () |}.
Proof.
  intros Hne Hconf. unfold deleteBtn_click. cbn [run].
  destruct (length (getIds p) =? 0)%nat eqn:Hlen.
  { apply Nat.eqb_eq in Hlen. by destruct (getIds p). }
  unfold confirm. proc_simpl. cbn [run]. by rewrite Hconf.
Qed.

Lemma run_deleteBtn_click_empty (p : Page) (w : W) :
  getIds p = [] →
  run deleteBtn_click p w =
  {| timeline := [(p, AlertShown "No bookmark IDs to delete.")];
     page := p; world := w; completion := Fulfilled () |}.
Proof. intros Hids. unfold deleteBtn_click. cbn [run]. by rewrite Hids. Qed.
End PageRunLemmas.

Section PageMore.
Context `{Engine} {St W : Type} `{!Browser W}.

(** X18. Declining the confirmation ends the click there: the prompt is the
    only event, the store is not called and the page is left exactly as it
    was. *)
Theorem declined_run_changes_nothing (p : Page) (w w1 : W) :
  getIds p ≠ [] →
  window_confirm (confirm_text (length (getIds p))) w = (false, w1) →
  run deleteBtn_click p w =
  {| timeline := [(p, ConfirmShown (confirm_text (length (getIds p))) false)];
     page := p; world := w1; completion := Fulfilled () |}.
Proof. apply run_deleteBtn_click_declined. Qed.

(** X19. A click on delete with no identifier in the input only shows the
    alert: no confirmation is asked, the store is not called and the page
    is left exactly as it was. *)
Theorem empty_input_only_alerts (p : Page) (w : W) :
  getIds p = [] →
  run deleteBtn_click p w =
  {| timeline := [(p, AlertShown "No bookmark IDs to delete.")];
     page := p; world := w; completion := Fulfilled () |}.
Proof. apply run_deleteBtn_click_empty. Qed.

(** X20. The click handler of the delete button never throws, whatever the
    input holds, whatever the operator answers and whichever removals the
    store rejects. *)
Theorem delete_click_never_throws (p : Page) (w : W) :
  completion (run deleteBtn_click p w) = Fulfilled ().
Proof.
  destruct (getIds p) as [|id ids] eqn:Hids.
  { by rewrite run_deleteBtn_click_empty. }
  destruct (window_confirm (confirm_text (length (getIds p))) w) as [[] w1] eqn:Hconf.
  - by apply (run_deleteBtn_click_pages p w w1); [rewrite Hids|].
  - by rewrite (run_deleteBtn_click_declined p w w1); [|rewrite Hids|].
Qed.


(** X22. When a confirmed run is over, the progress line reports the
    number of deletions and the number of failures; the failures are the
    remove calls the store rejected, and the two numbers add up to the
    number of identifiers. The progress area and the result log are shown. *)
Theorem final_report (p : Page) (w w1 : W) :
  getIds p ≠ [] →
  window_confirm (confirm_text (length (getIds p))) w = (true, w1) →
  ∃ successCount,
    (successCount + failures (timeline (run deleteBtn_click p w))
     = length (getIds p))%nat
    ∧ progressText_content (page (run deleteBtn_click p w))
      = complete_text successCount (failures (timeline (run deleteBtn_click p w)))
    ∧ progressDiv_show (page (run deleteBtn_click p w)) = true
    ∧ resultsDiv_show (page (run deleteBtn_click p w)) = true.
Proof.
  intros Hne Hconf.
  destruct (run_deleteBtn_click_pages p w w1 Hne Hconf)
    as (_ & _ & _ & _ & _ & Htext & Hprogress & Hresults & _).
  destruct (run_deleteBtn_click_confirmed p w w1 Hne Hconf) as (Hev & _).
  pose proof (call_each_length bookmarks_remove (getIds p) w1) as Hlen.
  rewrite (failures_batch _ _ _ _ _ Hlen Hev).
  eexists. split; [|by repeat split].
  by rewrite count_rejected_fulfilled.
Qed.

(** X23. A confirmed run of the page does to the store what the router's
    [deleteBookmarks] does for the same identifiers: the same remove calls
    with the same outcomes in the same order, the same store at the end,
    and a success line in the log exactly where the router's entry has
    [success: true]. *)
Theorem page_run_matches_batch (p : Page) (s : St) (w w1 : W) :
  getIds p ≠ [] →
  window_confirm (confirm_text (length (getIds p))) w = (true, w1) →
  (timeline (run deleteBtn_click p w)).*2
    = ConfirmShown (confirm_text (length (getIds p))) true
      :: (timeline (run (deleteBookmarks (VArr (VStr <$> getIds p))) s w1)).*2
  ∧ world (run deleteBtn_click p w)
    = world (run (deleteBookmarks (VArr (VStr <$> getIds p))) s w1)
  ∧ ∃ results,
      completion (run (deleteBookmarks (VArr (VStr <$> getIds p))) s w1)
        = Fulfilled results
      ∧ dr_id <$> results = getIds p
      ∧ (take (length (getIds p))
              (resultsDiv_children (page (run deleteBtn_click p w)))).*1
        = dr_success <$> results.
Proof.
  intros Hne Hconf.
  destruct (run_deleteBtn_click_confirmed p w w1 Hne Hconf)
    as (Hev & _ & Hworld & _ & _ & _ & _ & _ & _ & Hlog).
  rewrite run_deleteBookmarks_array.
  rewrite <- list_fmap_compose.
  replace ((ToString ∘ VStr) <$> getIds p) with (getIds p)
    by (by rewrite <- (list_fmap_id (getIds p)) at 1).
  pose proof (call_each_length bookmarks_remove (getIds p) w1) as Hlen.
  destruct (call_each bookmarks_remove (getIds p) w1) as [os w2].
  cbn [fst snd timeline world completion] in *.
  rewrite snd_pair_fmap. split; [done|]. split; [done|].
  eexists. split; [done|]. split.
  { apply fmap_zip_with_fst; [apply dr_id_delete_entry|done]. }
  rewrite Hlog, take_app_length'
    by (by rewrite length_zip_with_l_eq).
  clear Hev Hlog. revert os Hlen. generalize (getIds p).
  induction l as [|id ids IH]; intros [|o os] Hlen; simpl in *; try done.
  rewrite IH by lia. by destruct o.
Qed.

(** X24. The count shown and the state of the delete button follow the
    text of the input through every handler: after a file import, an edit
    of the input and a click on clear the button is disabled exactly when
    the input holds no id and the count shown is the number of ids; a
    paste and a click on delete keep it so. *)
Theorem count_stays_consistent :
  (∀ text p (w : W), count_consistent (page (run (reader_onload text) p w)))
  ∧ (∀ text p (w : W), count_consistent (page (run (bookmarkIdsInput_input text) p w)))
  ∧ (∀ p (w : W), count_consistent (page (run clearBtn_click p w)))
  ∧ (∀ clipboard p (w : W),
       count_consistent p →
       count_consistent (page (run (pasteBtn_click clipboard) p w)))
  ∧ (∀ p (w : W),
       count_consistent p →
       count_consistent (page (run deleteBtn_click p w))).
Proof.
  assert (∀ p, count_consistent (updateCount p)) as Hupdate.
  { intros p. by destruct p. }
  split; [|split; [|split; [|split]]].
  - intros text p w. apply (Hupdate (set_bookmarkIdsInput_value _ p)).
  - intros text p w. apply (Hupdate (set_bookmarkIdsInput_value _ p)).
  - intros p w. unfold clearBtn_click, modify. proc_simpl. cbn [run page].
    apply Hupdate.
  - intros [text|m] p w Hp.
    + apply (Hupdate (set_bookmarkIdsInput_value _ p)).
    + exact Hp.
  - intros p w Hp.
    destruct (getIds p) as [|id ids] eqn:Hids.
    { by rewrite run_deleteBtn_click_empty. }
    destruct (window_confirm (confirm_text (length (getIds p))) w)
      as [[] w1] eqn:Hconf.
    2:{ by rewrite (run_deleteBtn_click_declined p w w1); [|rewrite Hids|]. }
    assert (getIds p ≠ []) as Hne by by rewrite Hids.
    destruct (run_deleteBtn_click_confirmed p w w1 Hne Hconf)
      as (_ & _ & _ & _ & _ & _ & _ & Hdelete & Hvalue & _).
    destruct (run_deleteBtn_click_pages p w w1 Hne Hconf)
      as (_ & _ & _ & _ & _ & _ & _ & _ & Hcount).
    destruct Hp as [_ Hshown]. unfold count_consistent.
    assert (getIds (page (run deleteBtn_click p w))
            = if (count_rejected (call_each bookmarks_remove (getIds p) w1).1 =? 0)%nat
              then [] else getIds p) as Hids'.
    { unfold getIds. rewrite Hvalue. by destruct (_ =? _)%nat. }
    rewrite Hids', Hdelete, Hcount.
    destruct (_ =? 0)%nat; [done|]. split; [by rewrite Hids|exact Hshown].
Qed.
End PageMore.

(** ** The properties on the sample browser *)

Import Sample.

(** The three imports the specification lists. *)
Example import_array_of_strings :
  imported_ids ("[" +:+ quoted "a" +:+ "," +:+ quoted "b" +:+ "]") blank store
  = ["a"; "b"].
Proof. vm_compute. reflexivity. Qed.

Example import_array_of_records :
  imported_ids ("[{" +:+ quoted "id" +:+ ":" +:+ quoted "x" +:+ "}]") blank store
  = ["x"].
Proof. vm_compute. reflexivity. Qed.

Example import_of_free_text :
  imported_ids ("a" +:+ newline +:+ "#comment" +:+ newline +:+ newline +:+ "b")
    blank store
  = ["a"; "b"].
Proof. vm_compute. reflexivity. Qed.

(** C9. Import of a file whose text is [[null]]: the text parses as a
    structured array of one scalar element, so the identifier list should
    be that of the rejoined elements, which is empty; the page instead
    holds the raw text as its one identifier, because reading [id] of
    [null] throws inside the [try] block and the [catch] keeps the raw
    text. *)
Theorem import_of_null_element :
  JSON_parse null_array = Some (VArr [VNull])
  ∧ imported_ids_spec null_array = []
  ∧ imported_ids null_array blank store = ["[null]"]
  ∧ imported_ids null_array blank store ≠ imported_ids_spec null_array.
Proof.
  assert (imported_ids_spec null_array = []) as Hspec by by vm_compute.
  assert (imported_ids null_array blank store = ["[null]"]) as Hcode by by vm_compute.
  split; [by vm_compute|]. split; [exact Hspec|]. split; [exact Hcode|].
  rewrite Hspec, Hcode. discriminate.
Qed.



Lemma structural_fault_single_failure_witness :
  get bare_delete_request "bookmarkIds" = Some VUndefined
  ∧ (timeline (run (onMessageExternal bare_delete_request) () store)).*2
    = [ResponseSent {| success := false; results := None;
                       error := Some "bookmarkIds is not iterable";
                       message := None |}]
  ∧ world (run (onMessageExternal bare_delete_request) () store) = store.
Proof.
  split; [reflexivity|].
  destruct (structural_fault_single_failure (H:=engine) bare_delete_request
              VUndefined () store eq_refl eq_refl eq_refl) as (Hev & _ & _ & Hworld).
  split; [exact Hev|exact Hworld].
Defined.

Lemma unrecognised_action_dropped_witness :
  action_tag list_request = Some "listBookmarks"
  ∧ timeline (run (onMessageExternal list_request) () store) = []
  ∧ timeline (run (port_onMessage list_request) () store) = [].
Proof.
  split; [reflexivity|].
  destruct (unrecognised_action_dropped (H:=engine) list_request () store)
    as [[Hone _] [Hport _]]; [discriminate..|].
  split; [exact Hone|exact Hport].
Defined.

(** C4 fails for [ping]: the one-shot channel answers it, a persistent
    connection does not. *)
Lemma persistent_ping_unanswered :
  action_tag ping_request = Some "ping"
  ∧ responses_sent (timeline (run (onMessageExternal ping_request) () store))
    = [ping_envelope]
  ∧ messages_posted (timeline (run (port_onMessage ping_request) () store)) = []
  ∧ messages_posted (timeline (run (port_onMessage ping_request) () store))
    ≠ responses_sent (timeline (run (onMessageExternal ping_request) () store)).
Proof.
  assert (responses_sent (timeline (run (onMessageExternal ping_request) () store))
          = [ping_envelope]) as Hsent by reflexivity.
  assert (messages_posted (timeline (run (port_onMessage ping_request) () store))
          = []) as Hposted by reflexivity.
  split; [reflexivity|]. split; [exact Hsent|]. split; [exact Hposted|].
  rewrite Hsent, Hposted. discriminate.
Qed.

Lemma persistent_channel_serves_delete_only_witness :
  action_tag delete_request = Some "deleteBookmarks"
  ∧ messages_posted (timeline (run (port_onMessage delete_request) () store))
    = responses_sent (timeline (run (onMessageExternal delete_request) () store)).
Proof.
  split; [reflexivity|].
  destruct (persistent_channel_serves_delete_only (H:=engine) delete_request () store)
    as [Hdelete _].
  destruct (Hdelete eq_refl) as (_ & Hposted & _). exact Hposted.
Defined.


(** C7 fails after a run without failure: the delete button is left
    disabled, so not all five controls report enabled. *)
Lemma delete_button_disabled_after_clean_run :
  getIds (typed "5") = ["5"]
  ∧ window_confirm (confirm_text 1) store = (true, store)
  ∧ failures (timeline (run deleteBtn_click (typed "5") store)) = 0%nat
  ∧ deleteBtn_disabled (page (run deleteBtn_click (typed "5") store)) = true
  ∧ controls_enabled (page (run deleteBtn_click (typed "5") store)) ≠ true.
Proof.
  split; [reflexivity|]. split; [reflexivity|].
  split; [by vm_compute|]. split; [by vm_compute|].
  assert (controls_enabled (page (run deleteBtn_click (typed "5") store)) = false)
    as -> by by vm_compute.
  discriminate.
Qed.

Lemma controls_during_and_after_run_witness :
  (∃ q, head (store_snapshots
                (timeline (run deleteBtn_click (typed ("5" +:+ newline +:+ "9")) store)))
        = Some q
        ∧ deleteBtn_disabled q = true ∧ bookmarkIdsInput_disabled q = true)
  ∧ deleteBtn_disabled
      (page (run deleteBtn_click (typed ("5" +:+ newline +:+ "9")) store))
    = false
  ∧ bookmarkIdsInput_value
      (page (run deleteBtn_click (typed ("5" +:+ newline +:+ "6")) store))
    = "".
Proof.
  destruct (controls_during_and_after_run (H:=engine)
              (typed ("5" +:+ newline +:+ "9")) store store)
    as ((q & Hq & _ & _ & _ & Hdel & Hinp) & _ & _ & _ & _ & Hdelete & _);
    [discriminate|reflexivity|].
  destruct (controls_during_and_after_run (H:=engine)
              (typed ("5" +:+ newline +:+ "6")) store store)
    as (_ & _ & _ & _ & _ & _ & Hcleared); [discriminate|reflexivity|].
  split; [by exists q|].
  split; [rewrite Hdelete; reflexivity|].
  apply Hcleared. reflexivity.
Defined.

Lemma input_after_run_witness :
  bookmarkIdsInput_value
    (page (run deleteBtn_click (typed ("5" +:+ newline +:+ "9")) store))
  = "5" +:+ newline +:+ "9"
  ∧ bookmarkIdsInput_value
      (page (run deleteBtn_click (typed ("5" +:+ newline +:+ "6")) store))
    = "".
Proof.
  destruct (input_after_run (H:=engine) (typed ("5" +:+ newline +:+ "9")) store store)
    as [_ Hkept]; [discriminate|reflexivity|].
  destruct (input_after_run (H:=engine) (typed ("5" +:+ newline +:+ "6")) store store)
    as [Hcleared _]; [discriminate|reflexivity|].
  split; [apply Hkept; discriminate|apply Hcleared; reflexivity].
Defined.

(** ** The further properties on the sample browser *)

Lemma is_id_5 : is_id "5".
Proof.
  repeat split; try done.
  apply not_elem_of_cons. split; [discriminate|apply not_elem_of_nil].
Qed.

Lemma is_id_9 : is_id "9".
Proof.
  repeat split; try done.
  apply not_elem_of_cons. split; [discriminate|apply not_elem_of_nil].
Qed.

Lemma getIds_gives_ids_witness : is_id "b".
Proof.
  apply (getIds_gives_ids ("  a " +:+ newline +:+ "# c" +:+ newline +:+ " b") "b").
  vm_compute. apply list_elem_of_In. right. left. reflexivity.
Defined.

Lemma getIds_of_lines_witness :
  ids_of_text (lines_text ["5"; "9"]) = ["5"; "9"].
Proof.
  apply getIds_of_lines.
  apply Forall_cons_2; [exact is_id_5|].
  apply Forall_cons_2; [exact is_id_9|apply Forall_nil_2].
Defined.


Lemma import_reads_back_ids_witness :
  imported_ids array_file blank store = ["5"; "9"].
Proof.
  apply (import_reads_back_ids (H:=engine) array_file [VStr "5"; VStr "9"]).
  - reflexivity.
  - apply Forall2_cons_2; [by split|].
    apply Forall2_cons_2; [by split|apply Forall2_nil_2].
  - apply Forall_cons_2; [exact is_id_5|].
    apply Forall_cons_2; [exact is_id_9|apply Forall_nil_2].
Defined.

Lemma import_falls_back_to_text_witness :
  JSON_parse number_file = Some (VNum 42%Z)
  ∧ imported_ids number_file blank store = ["42"].
Proof.
  split; [reflexivity|].
  rewrite (import_falls_back_to_text (H:=engine) number_file blank store).
  - reflexivity.
  - intros items Hparse. discriminate Hparse.
Defined.

Lemma ping_acknowledged_witness :
  (timeline (run (onMessageExternal ping_request) () store)).*2
  = [ResponseSent {| success := true; results := None; error := None;
                     message := Some "Extension is active" |}].
Proof.
  by rewrite (ping_acknowledged (H:=engine) ping_request () store eq_refl).
Defined.

Lemma lookup_envelope_witness :
  ∃ envelope results,
    responses_sent (timeline (run (onMessageExternal lookup_request) () store))
      = [envelope]
    ∧ length results = 2%nat
    ∧ envelope = {| success := true; results := Some (LookupResults results);
                    error := None; message := None |}.
Proof.
  destruct (lookup_envelope (H:=engine) lookup_request
              (VArr [VStr "https://a.example/"; VNum 3%Z]) () store eq_refl eq_refl)
    as (envelope & Hsent & Hlist & _).
  destruct (Hlist _ eq_refl) as (results & _ & Hlen & Henv).
  exists envelope, results. split; [exact Hsent|]. split; [exact Hlen|exact Henv].
Defined.

Lemma null_request_throws_witness :
  timeline (run (onMessageExternal (VNull : value Z)) () store) = []
  ∧ timeline (run (port_onMessage (VNull : value Z)) () store) = [].
Proof.
  destruct (null_request_throws (H:=engine) VNull () store (or_introl eq_refl))
    as [Hone Hport].
  split; [exact (f_equal timeline Hone)|exact (f_equal timeline Hport)].
Defined.

Lemma listener_keeps_channel_open_witness :
  completion (run (onMessageExternal list_request) () store) = Fulfilled None
  ∧ completion (run (onMessageExternal delete_request) () store)
    = Fulfilled (Some true).
Proof.
  split.
  - by rewrite (listener_keeps_channel_open (H:=engine) list_request () store)
      by by eexists.
  - by rewrite (listener_keeps_channel_open (H:=engine) delete_request () store)
      by by eexists.
Defined.

Lemma empty_batch_succeeds_witness :
  (timeline (run (onMessageExternal empty_delete_request) () store)).*2
  = [ResponseSent {| success := true; results := Some (DeleteResults []);
                     error := None; message := None |}].
Proof.
  by destruct (empty_batch_succeeds (H:=engine) empty_delete_request () store
                 eq_refl eq_refl) as [[-> _] _].
Defined.


Lemma declined_run_changes_nothing_witness :
  page (run deleteBtn_click (typed "5") guarded_store) = typed "5"
  ∧ world (run deleteBtn_click (typed "5") guarded_store) = guarded_store.
Proof.
  rewrite (declined_run_changes_nothing (H:=engine) (typed "5")
             guarded_store guarded_store); [by split|discriminate|reflexivity].
Defined.

Lemma empty_input_only_alerts_witness :
  page (run deleteBtn_click (typed "# nothing") store) = typed "# nothing"
  ∧ world (run deleteBtn_click (typed "# nothing") store) = store.
Proof.
  by rewrite (empty_input_only_alerts (H:=engine) (typed "# nothing") store eq_refl).
Defined.


Lemma final_report_witness :
  ∃ successCount,
    (successCount
     + failures (timeline (run deleteBtn_click (typed ("5" +:+ newline +:+ "9")) store))
     = 2)%nat
    ∧ progressDiv_show
        (page (run deleteBtn_click (typed ("5" +:+ newline +:+ "9")) store))
      = true.
Proof.
  destruct (final_report (H:=engine) (typed ("5" +:+ newline +:+ "9")) store store)
    as (successCount & Hsum & _ & Hshown & _); [discriminate|reflexivity|].
  exists successCount. split; [exact Hsum|exact Hshown].
Defined.

Lemma page_run_matches_batch_witness :
  world (run deleteBtn_click (typed ("5" +:+ newline +:+ "9")) store)
  = world (run (deleteBookmarks (VArr [VStr "5"; VStr "9"])) () store).
Proof.
  destruct (page_run_matches_batch (H:=engine) (typed ("5" +:+ newline +:+ "9"))
              () store store) as (_ & Hworld & _); [discriminate|reflexivity|].
  exact Hworld.
Defined.

Lemma count_stays_consistent_witness :
  count_consistent (page (run deleteBtn_click (typed ("5" +:+ newline +:+ "9")) store)).
Proof.
  destruct (count_stays_consistent (H:=engine) (W:=World))
    as (_ & _ & _ & _ & Hdelete).
  apply Hdelete. split; reflexivity.
Defined.
